(** * LlamaIndex / Streamlit document chat: a shallow embedding

    Model of [6-3.LlamaIndex_Streamlit_Chat.py].  The script is a Streamlit
    page: every widget interaction re-runs [main] from the top against the
    process-local [st.session_state].  The embedding keeps that shape:

    - Python control flow ([return], [raise], [st.rerun()], [try/except])
      is a state monad whose result is a [completion];
    - the file system touched by the PDF staging code is a finite map from
      paths to byte contents;
    - everything Streamlit draws is appended to a trace of [ui_event]s;
    - the LlamaIndex / OpenAI calls are the fields of a [Services] record:
      they are opaque here exactly as they are opaque in the script. *)

From Stdlib Require Import NArith List.
From Stdlib Require Import Strings.String Strings.Byte.
From stdpp Require Import gmap strings list fin_maps.

Import ListNotations.
Local Open Scope string_scope.
Local Open Scope list_scope.

(** ** Python values used by the script *)

(** A Python [str] is represented by its UTF-8 encoding; [bytes] are lists
    of bytes. *)
Definition bytes := list Byte.byte.

(** Exceptions that can travel through the script.  [ExternalError] stands
    for whatever an external library call raises ([str(e)] is its payload). *)
Inductive exn : Type :=
| UnicodeDecodeError
| FileNotFoundError (path : string)
| AttributeError (what : string)
| OSError (msg : string)
| ExternalError (msg : string).

(** Result of a call into an external library. *)
Inductive result (A : Type) : Type :=
| Ok (a : A)
| Err (e : exn).
Arguments Ok {A} a.
Arguments Err {A} e.

(** *** [bytes.decode('utf-8')]

    Strict decoding, as CPython does it: shortest-form sequences only, no
    surrogates, nothing above U+10FFFF. *)
Definition in_range (lo hi : N) (b : Byte.byte) : bool :=
  (lo <=? Byte.to_N b)%N && (Byte.to_N b <=? hi)%N.

Definition continuation_byte (b : Byte.byte) : bool := in_range 0x80 0xBF b.

(** Admissible second byte after a three-byte lead [b0] (E0..EF). *)
Definition second_of_three (b0 b1 : Byte.byte) : bool :=
  if (Byte.to_N b0 =? 0xE0)%N then in_range 0xA0 0xBF b1
  else if (Byte.to_N b0 =? 0xED)%N then in_range 0x80 0x9F b1
  else continuation_byte b1.

(** Admissible second byte after a four-byte lead [b0] (F0..F4). *)
Definition second_of_four (b0 b1 : Byte.byte) : bool :=
  if (Byte.to_N b0 =? 0xF0)%N then in_range 0x90 0xBF b1
  else if (Byte.to_N b0 =? 0xF4)%N then in_range 0x80 0x8F b1
  else continuation_byte b1.

Fixpoint utf8_valid (bs : bytes) : bool :=
  match bs with
  | [] => true
  | b0 :: r0 =>
      if in_range 0x00 0x7F b0 then utf8_valid r0
      else if in_range 0xC2 0xDF b0 then
        match r0 with
        | b1 :: r1 => continuation_byte b1 && utf8_valid r1
        | _ => false
        end
      else if in_range 0xE0 0xEF b0 then
        match r0 with
        | b1 :: b2 :: r2 =>
            second_of_three b0 b1 && continuation_byte b2 && utf8_valid r2
        | _ => false
        end
      else if in_range 0xF0 0xF4 b0 then
        match r0 with
        | b1 :: b2 :: b3 :: r3 =>
            second_of_four b0 b1 && continuation_byte b2
            && continuation_byte b3 && utf8_valid r3
        | _ => false
        end
      else false
  end.

Definition decode_utf8 (bs : bytes) : result string :=
  if utf8_valid bs then Ok (string_of_list_byte bs) else Err UnicodeDecodeError.

(** ** Data handled by the script *)

(** A Streamlit [UploadedFile]: a fresh in-memory stream per script run,
    so [file.read()] yields the whole content. *)
Record UploadedFile : Type := {
  name : string;
  type : string;
  getvalue : bytes
}.

Definition read (file : UploadedFile) : bytes := getvalue file.

(** LlamaIndex [Document(text=..., metadata=...)]. *)
Record Document : Type := {
  text : string;
  metadata : list (string * string)
}.

(** One transcript entry, [{"role": ..., "content": ...}]. *)
Record Message : Type := {
  role : string;
  content : string
}.

(** What [chat_engine.chat] returns: the answer and, when the attribute is
    there, the texts of the source nodes. *)
Record Response : Type := {
  response : string;
  source_nodes : option (list string)
}.

(** The language-model settings installed by [initialize_llm_and_settings]
    (the temperature, a float, is left out). *)
Record LLM : Type := {
  model : string;
  max_tokens : N;
  context_window : N
}.

(** Everything the script draws, in drawing order.  [st_chat_message r]
    is the opening of a chat-message container ([with st.chat_message(r)]),
    [st_markdown body] the text written into the container that is open.
    Spinners, which are taken off the page when their block ends, are not
    recorded. *)
Inductive ui_event : Type :=
| st_title
| st_sidebar_text_input
| st_warning_api_key
| st_sidebar_header
| st_sidebar_file_uploader
| st_error_unsupported (filename : string)
| st_error_processing (filename : string) (e : exn)
| st_sidebar_success (ndocs : nat)
| st_success_processed
| st_error_no_documents
| st_chat_message (r : string)
| st_markdown (body : string)
| st_chat_input
| st_expander_debug (resp : Response)
| st_info_upload_first
| st_sidebar_button.

(** ** Control flow *)

(** How a block of Python ends: it falls through with a value, executes
    [return], raises, or calls [st.rerun()]. *)
Inductive completion (A : Type) : Type :=
| Continue (a : A)
| Returned
| Raised (e : exn)
| Rerun.
Arguments Continue {A} a.
Arguments Returned {A}.
Arguments Raised {A} e.
Arguments Rerun {A}.

Definition M (S A : Type) : Type := S -> completion A * S.

Definition ret {S A} (a : A) : M S A := fun s => (Continue a, s).

Definition bind {S A B} (m : M S A) (k : A -> M S B) : M S B :=
  fun s =>
    match m s with
    | (Continue a, s') => k a s'
    | (Returned, s') => (Returned, s')
    | (Raised e, s') => (Raised e, s')
    | (Rerun, s') => (Rerun, s')
    end.

Definition modify {S} (f : S -> S) : M S unit := fun s => (Continue tt, f s).
Definition gets {S A} (f : S -> A) : M S A := fun s => (Continue (f s), s).
Definition raise {S A} (e : exn) : M S A := fun s => (Raised e, s).
Definition return_ {S A} : M S A := fun s => (Returned, s).
Definition rerun {S A} : M S A := fun s => (Rerun, s).

Definition lift_result {S A} (r : result A) : M S A :=
  match r with
  | Ok a => ret a
  | Err e => raise e
  end.

(** [try: body  except Exception as e: handler e] *)
Definition try_except {S A} (body : M S A) (handler : exn -> M S A) : M S A :=
  fun s =>
    match body s with
    | (Raised e, s') => handler e s'
    | other => other
    end.

Declare Scope py_scope.
Delimit Scope py_scope with py.
Notation "x <- m ;; k" := (bind m (fun x => k))
  (at level 100, m at next level, right associativity) : py_scope.
Notation "m ;;; k" := (bind m (fun _ => k))
  (at level 100, right associativity) : py_scope.
Local Open Scope py_scope.

(** [for x in xs: body x] *)
Fixpoint for_each {S A} (xs : list A) (body : A -> M S unit) : M S unit :=
  match xs with
  | [] => ret tt
  | x :: rest => body x ;;; for_each rest body
  end.

(** ** External services

    The calls the script makes into LlamaIndex and OpenAI, and the
    platform's answer to [open(path, "wb")].  Whether a path can be opened
    for writing depends on the name (its length, the directories it names)
    and on the platform; the script creates no directory and changes no
    permission, so the answer is fixed for a session.  [load_data]
    receives the path it is given and the bytes found in that file;
    [chat] also returns the engine afterwards, since a chat engine keeps
    its own conversation memory. *)
Record Services : Type := {
  Index : Type;
  Engine : Type;
  open_for_writing : string -> result unit;
  load_data : string -> bytes -> result (list Document);
  from_documents : list Document -> result Index;
  as_chat_engine : Index -> result Engine;
  chat : Engine -> string -> result Response * Engine
}.

Section Script.

Context (sv : Services).

(** ** State of the process *)

(** [st.session_state]: each attribute is present or absent. *)
Record session_state : Type := {
  chat_engine : option (Engine sv);
  messages : option (list Message)
}.

Record world : Type := {
  fs : gmap string bytes;           (* files on disk, by path *)
  environ : gmap string string;     (* os.environ *)
  settings_llm : option LLM;        (* llama_index Settings.llm *)
  ui : list ui_event;               (* what has been drawn *)
  session : session_state           (* st.session_state *)
}.

Definition set_fs (f : gmap string bytes -> gmap string bytes) (w : world) : world :=
  {| fs := f (fs w); environ := environ w; settings_llm := settings_llm w;
     ui := ui w; session := session w |}.

Definition set_environ (k v : string) (w : world) : world :=
  {| fs := fs w; environ := <[k := v]> (environ w); settings_llm := settings_llm w;
     ui := ui w; session := session w |}.

Definition set_settings_llm (l : LLM) (w : world) : world :=
  {| fs := fs w; environ := environ w; settings_llm := Some l;
     ui := ui w; session := session w |}.

Definition draw (ev : ui_event) (w : world) : world :=
  {| fs := fs w; environ := environ w; settings_llm := settings_llm w;
     ui := ui w ++ [ev]; session := session w |}.

Definition set_session (f : session_state -> session_state) (w : world) : world :=
  {| fs := fs w; environ := environ w; settings_llm := settings_llm w;
     ui := ui w; session := f (session w) |}.

Definition set_chat_engine (e : Engine sv) (s : session_state) : session_state :=
  {| chat_engine := Some e; messages := messages s |}.

Definition set_messages (ms : list Message) (s : session_state) : session_state :=
  {| chat_engine := chat_engine s; messages := Some ms |}.

(** ** Operating-system calls used for PDF staging *)

(** [with open(path, "wb") as f: f.write(data)]: [open] raises when the
    platform refuses the path, and nothing is created then; otherwise the
    file is created or overwritten with [data]. *)
Definition open_write (path : string) (data : bytes) : M world unit :=
  fun w =>
    match open_for_writing sv path with
    | Ok _ => (Continue tt, set_fs (fun m => <[path := data]> m) w)
    | Err e => (Raised e, w)
    end.

(** [os.remove(path)] *)
Definition os_remove (path : string) : M world unit :=
  fun w =>
    match fs w !! path with
    | Some _ => (Continue tt, set_fs (fun m => delete path m) w)
    | None => (Raised (FileNotFoundError path), w)
    end.

(** [pdf_reader.load_data(path)]: the reader opens the file at [path]. *)
Definition pdf_reader_load_data (path : string) : M world (list Document) :=
  fun w =>
    match fs w !! path with
    | Some data => lift_result (load_data sv path data) w
    | None => (Raised (FileNotFoundError path), w)
    end.

(** ** [process_uploaded_files] *)

(** The function's local list [documents] together with the world. *)
Record loader_state : Type := {
  documents : list Document;
  outer : world
}.

Definition in_world {A} (m : M world A) : M loader_state A :=
  fun st =>
    let '(c, w) := m (outer st) in
    (c, {| documents := documents st; outer := w |}).

Definition documents_append (doc : Document) : M loader_state unit :=
  modify (fun st => {| documents := documents st ++ [doc]; outer := outer st |}).

Definition documents_extend (docs : list Document) : M loader_state unit :=
  modify (fun st => {| documents := documents st ++ docs; outer := outer st |}).

Definition st_error (ev : ui_event) : M loader_state unit :=
  in_world (modify (draw ev)).

Definition temp_path (file : UploadedFile) : string := "temp_" ++ name file.

(** Body of the [for file in uploaded_files] loop (lines 33-56). *)
Definition process_file (file : UploadedFile) : M loader_state unit :=
  try_except
    (let content := read file in
     if decide (type file = "text/plain") then
       text_content <- lift_result (decode_utf8 content) ;;
       documents_append
         {| text := text_content; metadata := [("filename", name file)] |}
     else if decide (type file = "application/pdf") then
       in_world (open_write (temp_path file) content) ;;;
       pdf_docs <- in_world (pdf_reader_load_data (temp_path file)) ;;
       documents_extend pdf_docs ;;;
       in_world (os_remove (temp_path file))
     else
       st_error (st_error_unsupported (name file)))
    (fun e => st_error (st_error_processing (name file) e)).

Definition process_uploaded_files (uploaded_files : list UploadedFile)
  : M world (list Document) :=
  fun w =>
    match for_each uploaded_files process_file {| documents := []; outer := w |} with
    | (Continue _, st) => (Continue (documents st), outer st)
    | (Returned, st) => (Returned, outer st)
    | (Raised e, st) => (Raised e, outer st)
    | (Rerun, st) => (Rerun, outer st)
    end.

(** ** The page script *)

(** Python truthiness of a [str] and of a [list]. *)
Definition str_truthy (s : string) : bool :=
  if decide (s = "") then false else true.

Definition list_truthy {A} (l : list A) : bool :=
  match l with
  | [] => false
  | _ :: _ => true
  end.

(** Widget values of one script run: what [st.sidebar.text_input],
    [st.sidebar.file_uploader], [st.chat_input] and [st.sidebar.button]
    return when the script reaches them. *)
Record run_input : Type := {
  api_key_input : string;
  uploaded : list UploadedFile;
  chat_input_value : option string;
  reset_button : bool
}.

Definition st_draw (ev : ui_event) : M world unit := modify (draw ev).

Definition setup_streamlit_page : M world unit := st_draw st_title.

Definition setup_openai_api (i : run_input) : M world string :=
  st_draw st_sidebar_text_input ;;;
  let openai_api_key := api_key_input i in
  (if str_truthy openai_api_key
   then modify (set_environ "OPENAI_API_KEY" openai_api_key)
   else ret tt) ;;;
  ret openai_api_key.

Definition initialize_llm_and_settings : M world LLM :=
  let llm := {| model := "gpt-4o"; max_tokens := 512; context_window := 4096 |} in
  modify (set_settings_llm llm) ;;;
  ret llm.

Definition initialize_chat_engine (index : Index sv) : M world (Engine sv) :=
  lift_result (as_chat_engine sv index).

(** [st.session_state.messages], an [AttributeError] when absent. *)
Definition session_messages : M world (list Message) :=
  fun w =>
    match messages (session w) with
    | Some ms => (Continue ms, w)
    | None => (Raised (AttributeError "messages"), w)
    end.

(** [st.session_state.messages.append(m)] *)
Definition messages_append (m : Message) : M world unit :=
  ms <- session_messages ;;
  modify (set_session (set_messages (ms ++ [m]))).

(** [st.session_state.chat_engine.chat(prompt)]: the engine object held by
    the session is the one the call updates. *)
Definition chat_engine_chat (prompt : string) : M world Response :=
  fun w =>
    match chat_engine (session w) with
    | Some e =>
        let '(r, e') := chat sv e prompt in
        lift_result r (set_session (set_chat_engine e') w)
    | None => (Raised (AttributeError "chat_engine"), w)
    end.

(** [main], lines 73-104: page set-up, API key gate, file uploader,
    processing of the uploaded batch and construction of the engine. *)
Definition main_upload_section (i : run_input) : M world unit :=
  setup_streamlit_page ;;;
  openai_api_key <- setup_openai_api i ;;
  (if negb (str_truthy openai_api_key)
   then st_draw st_warning_api_key ;;; return_
   else ret tt) ;;;
  st_draw st_sidebar_header ;;;
  st_draw st_sidebar_file_uploader ;;;
  let uploaded_files := uploaded i in
  if list_truthy uploaded_files then
    initialize_llm_and_settings ;;;
    documents <- process_uploaded_files uploaded_files ;;
    if list_truthy documents then
      st_draw (st_sidebar_success (List.length documents)) ;;;
      index <- lift_result (from_documents sv documents) ;;
      engine <- initialize_chat_engine index ;;
      modify (set_session (set_chat_engine engine)) ;;;
      st_draw st_success_processed
    else
      st_draw st_error_no_documents ;;;
      return_
  else ret tt.

(** [main], lines 107-113: transcript initialisation and display. *)
Definition main_history_section : M world unit :=
  present <- gets (fun w => messages (session w)) ;;
  (match present with
   | None => modify (set_session (set_messages []))
   | Some _ => ret tt
   end) ;;;
  ms <- session_messages ;;
  for_each ms (fun message =>
    st_draw (st_chat_message (role message)) ;;;
    st_draw (st_markdown (content message))).

(** [main], lines 116-137: the chat input and one user turn. *)
Definition main_chat_section (i : run_input) : M world unit :=
  engine <- gets (fun w => chat_engine (session w)) ;;
  match engine with
  | Some _ =>
      st_draw st_chat_input ;;;
      match chat_input_value i with
      | Some prompt =>
          if str_truthy prompt then
            messages_append {| role := "user"; content := prompt |} ;;;
            st_draw (st_chat_message "user") ;;;
            st_draw (st_markdown prompt) ;;;
            st_draw (st_chat_message "assistant") ;;;
            resp <- chat_engine_chat prompt ;;
            st_draw (st_markdown (response resp)) ;;;
            messages_append {| role := "assistant"; content := response resp |} ;;;
            st_draw (st_expander_debug resp)
          else ret tt
      | None => ret tt
      end
  | None => st_draw st_info_upload_first
  end.

(** [main], lines 140-142: the reset button. *)
Definition main_reset_section (i : run_input) : M world unit :=
  st_draw st_sidebar_button ;;;
  if reset_button i then
    modify (set_session (set_messages [])) ;;;
    rerun
  else ret tt.

Definition main (i : run_input) : M world unit :=
  main_upload_section i ;;;
  main_history_section ;;;
  main_chat_section i ;;;
  main_reset_section i.

(** The script as far as the line that decides whether a turn is taken
    (line 116). *)
Definition main_before_chat (i : run_input) : M world unit :=
  main_upload_section i ;;;
  main_history_section.

(** ** Derived notions used in the statements *)

(** A session as Streamlit creates it: nothing in [st.session_state]. *)
Definition fresh_world (disk : gmap string bytes) (env : gmap string string) : world :=
  {| fs := disk; environ := env; settings_llm := None; ui := [];
     session := {| chat_engine := None; messages := None |} |}.

(** The worlds a session can be in: a fresh one, or the world left by one
    more script run, however that run ended. *)
Inductive reachable : world -> Prop :=
| reachable_fresh disk env : reachable (fresh_world disk env)
| reachable_run w i : reachable w -> reachable (snd (main i w)).

(** The transcript: the [messages] list, empty while the attribute is absent. *)
Definition transcript (w : world) : list Message :=
  match messages (session w) with
  | Some ms => ms
  | None => []
  end.

(** The list [process_uploaded_files] returns for a batch (computed on an
    empty disk; the list does not depend on the world, see
    [process_uploaded_files_documents]). *)
Definition loader_documents (files : list UploadedFile) : list Document :=
  match fst (process_uploaded_files files (fresh_world ∅ ∅)) with
  | Continue docs => docs
  | _ => []
  end.

(** Per-file result as the specification words it: one Document for a
    plain-text file that decodes, the extracted Documents for a PDF that is
    staged and whose extraction succeeds, nothing otherwise. *)
Definition spec_file_result (file : UploadedFile) : list Document :=
  if decide (type file = "text/plain") then
    match decode_utf8 (getvalue file) with
    | Ok t => [ {| text := t; metadata := [("filename", name file)] |} ]
    | Err _ => []
    end
  else if decide (type file = "application/pdf") then
    match open_for_writing sv ("temp_" ++ name file) with
    | Ok _ =>
        match load_data sv ("temp_" ++ name file) (getvalue file) with
        | Ok docs => docs
        | Err _ => []
        end
    | Err _ => []
    end
  else [].

(** A file whose processing fails, in the three ways the loader knows. *)
Definition file_fails (file : UploadedFile) : Prop :=
  (type file = "text/plain" ∧ decode_utf8 (getvalue file) = Err UnicodeDecodeError)
  ∨ (type file = "application/pdf"
     ∧ ∃ e, load_data sv ("temp_" ++ name file) (getvalue file) = Err e)
  ∨ (type file ≠ "text/plain" ∧ type file ≠ "application/pdf").

(** The world in which the loader is started (line 92) when an API key was
    entered. *)
Definition before_loader (i : run_input) (w : world) : world :=
  set_settings_llm {| model := "gpt-4o"; max_tokens := 512; context_window := 4096 |}
    (draw st_sidebar_file_uploader
       (draw st_sidebar_header
          (set_environ "OPENAI_API_KEY" (api_key_input i)
             (draw st_sidebar_text_input (draw st_title w))))).

(** How a transcript entry is displayed (lines 112-113): a container for
    its role, holding its content. *)
Definition show (m : Message) : list ui_event :=
  [st_chat_message (role m); st_markdown (content m)].

(** The world after an entry has been displayed. *)
Definition draw_message (w : world) (m : Message) : world :=
  draw (st_markdown (content m)) (draw (st_chat_message (role m)) w).

(** The same run without a submitted prompt. *)
Definition no_prompt (i : run_input) : run_input :=
  {| api_key_input := api_key_input i; uploaded := uploaded i;
     chat_input_value := None; reset_button := reset_button i |}.

(** The two entries of a turn. *)
Definition user_turn (question : string) : Message :=
  {| role := "user"; content := question |}.

Definition assistant_turn (answer : string) : Message :=
  {| role := "assistant"; content := answer |}.

(** A user turn taken in the ready state: the script reaches line 116 with
    a chat engine in the session, a non-empty prompt was submitted, and the
    engine's [chat] on that prompt gives [r]. *)
Definition turn_taken (i : run_input) (w : world) (question : string)
    (r : result Response) : Prop :=
  ∃ w1 e e',
    main_before_chat i w = (Continue tt, w1)
    ∧ chat_engine (session w1) = Some e
    ∧ chat_input_value i = Some question
    ∧ question ≠ ""
    ∧ chat sv e question = (r, e').

(** What a callee that only stages files and draws may change: the disk
    and, by appending, the page. *)
Definition is_file_error (ev : ui_event) : Prop :=
  match ev with
  | st_error_unsupported _ | st_error_processing _ _ => True
  | _ => False
  end.

Definition stages_and_draws_only (w w' : world) : Prop :=
  session w' = session w
  ∧ environ w' = environ w
  ∧ settings_llm w' = settings_llm w
  ∧ ∃ evs, ui w' = ui w ++ evs ∧ Forall is_file_error evs.

(** The error entry drawn for a file, if any. *)
Definition is_error_for (file : UploadedFile) (ev : ui_event) : Prop :=
  ev = st_error_unsupported (name file) ∨ ∃ e, ev = st_error_processing (name file) e.

(** ** Notions used for the further properties *)

(** The settings object built on lines 18-23. *)
Definition gpt_4o : LLM :=
  {| model := "gpt-4o"; max_tokens := 512; context_window := 4096 |}.

(** The error entries one file makes the loader draw: none when it is
    loaded, one naming it otherwise. *)
Definition file_error_entry (file : UploadedFile) : list ui_event :=
  if decide (type file = "text/plain") then
    match decode_utf8 (getvalue file) with
    | Ok _ => []
    | Err e => [st_error_processing (name file) e]
    end
  else if decide (type file = "application/pdf") then
    match open_for_writing sv (temp_path file) with
    | Ok _ =>
        match load_data sv (temp_path file) (getvalue file) with
        | Ok _ => []
        | Err e => [st_error_processing (name file) e]
        end
    | Err e => [st_error_processing (name file) e]
    end
  else [st_error_unsupported (name file)].

(** What processing one file does to the disk. *)
Definition file_disk_effect (file : UploadedFile) (disk : gmap string bytes)
  : gmap string bytes :=
  if decide (type file = "text/plain") then disk
  else if decide (type file = "application/pdf") then
    match open_for_writing sv (temp_path file) with
    | Ok _ =>
        match load_data sv (temp_path file) (getvalue file) with
        | Ok _ => delete (temp_path file) disk
        | Err _ => <[temp_path file := getvalue file]> disk
        end
    | Err _ => disk
    end
  else disk.

(** Every assistant entry comes directly after a user entry, and there
    are no other roles.  [after_question] tells whether the entry before
    the list is a user entry. *)
Fixpoint answers_follow_questions (after_question : bool) (ms : list Message) : bool :=
  match ms with
  | [] => true
  | m :: rest =>
      if decide (role m = "user") then answers_follow_questions true rest
      else if decide (role m = "assistant") then
        after_question && answers_follow_questions false rest
      else false
  end.

(** What a run may add to the transcript: nothing, the question, or the
    question and an answer. *)
Definition turn_suffix (i : run_input) (suffix : list Message) : Prop :=
  suffix = []
  ∨ ∃ question, chat_input_value i = Some question ∧ question ≠ ""
      ∧ (suffix = [user_turn question]
         ∨ ∃ answer, suffix = [user_turn question; assistant_turn answer]).

(** The chat messages among the entries drawn: the containers and the
    texts written into them. *)
Definition is_chat_message (ev : ui_event) : bool :=
  match ev with
  | st_chat_message _ | st_markdown _ => true
  | _ => false
  end.

Definition drawn_messages (evs : list ui_event) : list ui_event :=
  List.filter is_chat_message evs.

(** The assistant container opened on line 124 stays empty when the call
    on line 126 raises. *)
Definition unfilled_container {A} (c : completion A) : list ui_event :=
  match c with
  | Raised _ => [st_chat_message "assistant"]
  | _ => []
  end.

End Script.

Arguments fs {sv} w.
Arguments environ {sv} w.
Arguments settings_llm {sv} w.
Arguments ui {sv} w.
Arguments session {sv} w.
Arguments chat_engine {sv} s.
Arguments messages {sv} s.
Arguments documents {sv} l.
Arguments outer {sv} l.
Arguments transcript {sv} w.
Arguments set_fs {sv} f w.
Arguments set_environ {sv} k v w.
Arguments set_settings_llm {sv} l w.
Arguments draw {sv} ev w.
Arguments set_session {sv} f w.
Arguments set_chat_engine {sv} e s.
Arguments set_messages {sv} ms s.
Arguments process_file {sv} file.
Arguments process_uploaded_files {sv} uploaded_files.
Arguments main_upload_section {sv} i.
Arguments main_history_section {sv}.
Arguments main_chat_section {sv} i.
Arguments main_reset_section {sv} i.
Arguments main_before_chat {sv} i.
Arguments main {sv} i.
Arguments fresh_world {sv} disk env.
Arguments reachable {sv} w.
Arguments stages_and_draws_only {sv} w w'.
Arguments before_loader {sv} i w.
Arguments draw_message {sv} w m.
Arguments turn_taken {sv} i w question r.

(** ** A concrete set of services

    Used to run the script on concrete inputs.  The PDF reader accepts a
    file that starts with the [%PDF] magic number and rejects anything
    else; a path cannot be opened when it is longer than 255 characters or
    names a directory (there is none); the index is the document list; the engine remembers the prompts
    it was sent and fails on the prompt [quota]. *)
Definition demo_open_for_writing (path : string) : result unit :=
  if (255 <? String.length path)%nat then Err (OSError "File name too long")
  else match String.index 0 "/" path with
       | Some _ => Err (FileNotFoundError path)
       | None => Ok tt
       end.

Definition demo_load_data (path : string) (data : bytes) : result (list Document) :=
  match data with
  | x25 :: x50 :: x44 :: x46 :: _ =>
      Ok [ {| text := string_of_list_byte data; metadata := [("file_path", path)] |} ]
  | _ => Err (ExternalError "invalid pdf header")
  end.

Definition demo_chat (e : list Document * list string) (prompt : string)
  : result Response * (list Document * list string) :=
  if decide (prompt = "quota") then
    (Err (ExternalError "quota exceeded"), e)
  else
    (Ok {| response := "echo: " ++ prompt; source_nodes := Some (map text (fst e)) |},
     (fst e, snd e ++ [prompt])).

Definition demo_services : Services :=
  {| Index := list Document;
     Engine := list Document * list string;
     open_for_writing := demo_open_for_writing;
     load_data := demo_load_data;
     from_documents := fun docs => Ok docs;
     as_chat_engine := fun idx => Ok (idx, []);
     chat := demo_chat |}.

Definition empty_txt : UploadedFile :=
  {| name := "empty.txt"; type := "text/plain"; getvalue := [] |}.

Definition sky_txt : UploadedFile :=
  {| name := "sky.txt"; type := "text/plain";
     getvalue := list_byte_of_string "The sky is blue." |}.

Definition bad_txt : UploadedFile :=
  {| name := "bad.txt"; type := "text/plain"; getvalue := [xff; xfe] |}.

Definition png_file : UploadedFile :=
  {| name := "logo.png"; type := "image/png"; getvalue := [x89; x50; x4e; x47] |}.

Definition good_pdf : UploadedFile :=
  {| name := "paper.pdf"; type := "application/pdf";
     getvalue := list_byte_of_string "%PDF-1.4 text" |}.

(** A well-formed PDF whose staging path names a directory. *)
Definition unstageable_pdf : UploadedFile :=
  {| name := "scans/paper.pdf"; type := "application/pdf";
     getvalue := list_byte_of_string "%PDF-1.4 text" |}.

Definition broken_pdf : UploadedFile :=
  {| name := "broken.pdf"; type := "application/pdf";
     getvalue := list_byte_of_string "not a pdf" |}.

(** Script runs used as examples: a first upload, then questions. *)
Definition upload_sky : run_input :=
  {| api_key_input := "sk-demo"; uploaded := [sky_txt];
     chat_input_value := None; reset_button := false |}.

Definition ask (question : string) : run_input :=
  {| api_key_input := "sk-demo"; uploaded := [sky_txt];
     chat_input_value := Some question; reset_button := false |}.

Definition ready_world : world demo_services :=
  snd (main upload_sky (fresh_world ∅ ∅)).

Definition demo_answer (question : string) : Response :=
  {| response := "echo: " ++ question; source_nodes := Some ["The sky is blue."] |}.

Definition upload_rejected : run_input :=
  {| api_key_input := "sk-demo"; uploaded := [png_file; bad_txt];
     chat_input_value := None; reset_button := false |}.

Definition upload_paper : run_input :=
  {| api_key_input := "sk-demo"; uploaded := [good_pdf];
     chat_input_value := None; reset_button := false |}.

Definition reset_with_sky : run_input :=
  {| api_key_input := "sk-demo"; uploaded := [sky_txt];
     chat_input_value := None; reset_button := true |}.

Definition click_reset : run_input :=
  {| api_key_input := "sk-demo"; uploaded := [];
     chat_input_value := None; reset_button := true |}.

Definition ask_without_upload (question : string) : run_input :=
  {| api_key_input := "sk-demo"; uploaded := [];
     chat_input_value := Some question; reset_button := false |}.

(** Services whose index construction rejects a Document with empty text,
    as an embedding service does; otherwise as [demo_services]. *)
Definition strict_from_documents (docs : list Document) : result (list Document) :=
  if forallb (fun d => negb (String.eqb (text d) "")) docs
  then Ok docs
  else Err (ExternalError "empty input").

Definition strict_services : Services :=
  {| Index := list Document;
     Engine := list Document * list string;
     open_for_writing := demo_open_for_writing;
     load_data := demo_load_data;
     from_documents := strict_from_documents;
     as_chat_engine := fun idx => Ok (idx, []);
     chat := demo_chat |}.

Definition upload_empty : run_input :=
  {| api_key_input := "sk-demo"; uploaded := [empty_txt];
     chat_input_value := None; reset_button := false |}.

Definition no_key_run : run_input :=
  {| api_key_input := ""; uploaded := [good_pdf];
     chat_input_value := Some "What color is the sky?"; reset_button := true |}.

Definition reset_with_upload : run_input :=
  {| api_key_input := "sk-demo"; uploaded := [good_pdf];
     chat_input_value := None; reset_button := true |}.

Definition ask_paper (question : string) : run_input :=
  {| api_key_input := "sk-demo"; uploaded := [good_pdf];
     chat_input_value := Some question; reset_button := false |}.

Definition paper_document : Document :=
  {| text := "%PDF-1.4 text"; metadata := [("file_path", "temp_paper.pdf")] |}.

(** * Properties *)

(** ** Sample runs *)

Example decode_empty : decode_utf8 [] = Ok "".
Proof. reflexivity. Qed.

Example decode_ascii : decode_utf8 [x54; x68; x65] = Ok "The".
Proof. reflexivity. Qed.

Example decode_invalid : decode_utf8 [xff] = Err UnicodeDecodeError.
Proof. reflexivity. Qed.

Example decode_overlong : decode_utf8 [xc0; x80] = Err UnicodeDecodeError.
Proof. reflexivity. Qed.

Example decode_surrogate : decode_utf8 [xed; xa0; x80] = Err UnicodeDecodeError.
Proof. reflexivity. Qed.

Example decode_truncated : decode_utf8 [xe2; x82] = Err UnicodeDecodeError.
Proof. reflexivity. Qed.

(** The loader on the sample files. *)
Example load_sky_txt :
  fst (process_uploaded_files [sky_txt] (fresh_world (sv := demo_services) ∅ ∅))
  = Continue [ {| text := "The sky is blue."; metadata := [("filename", "sky.txt")] |} ].
Proof. reflexivity. Qed.

Example load_png :
  process_uploaded_files [png_file] (fresh_world (sv := demo_services) ∅ ∅)
  = (Continue [], draw (st_error_unsupported "logo.png") (fresh_world ∅ ∅)).
Proof. reflexivity. Qed.

Example load_mixed_batch :
  fst (process_uploaded_files [png_file; sky_txt; bad_txt; good_pdf]
         (fresh_world (sv := demo_services) ∅ ∅))
  = Continue [ {| text := "The sky is blue."; metadata := [("filename", "sky.txt")] |};
               {| text := "%PDF-1.4 text"; metadata := [("file_path", "temp_paper.pdf")] |} ].
Proof. reflexivity. Qed.

Example load_unstageable_pdf :
  process_uploaded_files [unstageable_pdf] (fresh_world (sv := demo_services) ∅ ∅)
  = (Continue [],
     draw (st_error_processing "scans/paper.pdf"
             (FileNotFoundError "temp_scans/paper.pdf"))
       (fresh_world ∅ ∅)).
Proof. reflexivity. Qed.

Example failed_turn_page :
  ui (snd (main (ask "quota") ready_world))
  = ui ready_world
    ++ [ st_title; st_sidebar_text_input; st_sidebar_header; st_sidebar_file_uploader;
         st_sidebar_success 1; st_success_processed;
         st_chat_input; st_chat_message "user"; st_markdown "quota";
         st_chat_message "assistant" ].
Proof. reflexivity. Qed.

Example ask_before_upload :
  ui (snd (main (ask_without_upload "What color is the sky?")
             (fresh_world (sv := demo_services) ∅ ∅)))
  = [ st_title; st_sidebar_text_input; st_sidebar_header; st_sidebar_file_uploader;
      st_info_upload_first; st_sidebar_button ].
Proof. reflexivity. Qed.

Example ask_after_upload :
  transcript (snd (main (ask "What color is the sky?") ready_world))
  = [ user_turn "What color is the sky?";
      assistant_turn "echo: What color is the sky?" ].
Proof. reflexivity. Qed.


Section MonadFacts.

Context {S : Type}.

Lemma for_each_app {A} (xs ys : list A) (body : A -> M S unit) (s : S) :
  for_each (xs ++ ys) body s =
  (for_each xs body ;;; for_each ys body) s.
Proof.
  revert s. induction xs as [|x xs IH]; intros s; simpl.
  - reflexivity.
  - unfold bind. destruct (body x s) as [[[]| | |] s']; try reflexivity.
    rewrite IH. reflexivity.
Qed.

End MonadFacts.

Section LoaderFacts.

Context (sv : Services).

Lemma process_file_text_ok file (st : loader_state sv) t :
  type file = "text/plain" ->
  decode_utf8 (getvalue file) = Ok t ->
  process_file file st =
  (Continue tt,
   {| documents := documents st ++ [ {| text := t; metadata := [("filename", name file)] |} ];
      outer := outer st |}).
Proof.
  intros Hty Hdec. unfold process_file, try_except, bind, read.
  rewrite decide_True by exact Hty. rewrite Hdec. reflexivity.
Qed.

Lemma process_file_text_bad file (st : loader_state sv) e :
  type file = "text/plain" ->
  decode_utf8 (getvalue file) = Err e ->
  process_file file st =
  (Continue tt,
   {| documents := documents st;
      outer := draw (st_error_processing (name file) e) (outer st) |}).
Proof.
  intros Hty Hdec. unfold process_file, try_except, bind, read.
  rewrite decide_True by exact Hty. rewrite Hdec. reflexivity.
Qed.

Lemma process_file_pdf_ok file (st : loader_state sv) docs :
  type file = "application/pdf" ->
  open_for_writing sv (temp_path file) = Ok tt ->
  load_data sv (temp_path file) (getvalue file) = Ok docs ->
  process_file file st =
  (Continue tt,
   {| documents := documents st ++ docs;
      outer := set_fs (fun m => delete (temp_path file) m)
                 (set_fs (fun m => <[temp_path file := getvalue file]> m) (outer st)) |}).
Proof.
  intros Hty Hopen Hload. unfold process_file, try_except, bind, read.
  rewrite decide_False by (rewrite Hty; discriminate).
  rewrite decide_True by exact Hty.
  unfold in_world, open_write, modify, pdf_reader_load_data, os_remove; simpl.
  rewrite Hopen; simpl.
  rewrite lookup_insert_eq, Hload; simpl.
  rewrite lookup_insert_eq. reflexivity.
Qed.

Lemma process_file_pdf_bad file (st : loader_state sv) e :
  type file = "application/pdf" ->
  open_for_writing sv (temp_path file) = Ok tt ->
  load_data sv (temp_path file) (getvalue file) = Err e ->
  process_file file st =
  (Continue tt,
   {| documents := documents st;
      outer := draw (st_error_processing (name file) e)
                 (set_fs (fun m => <[temp_path file := getvalue file]> m) (outer st)) |}).
Proof.
  intros Hty Hopen Hload. unfold process_file, try_except, bind, read.
  rewrite decide_False by (rewrite Hty; discriminate).
  rewrite decide_True by exact Hty.
  unfold in_world, open_write, modify, pdf_reader_load_data; simpl.
  rewrite Hopen; simpl.
  rewrite lookup_insert_eq, Hload; simpl. reflexivity.
Qed.

(** When [open] raises, the handler is entered with nothing staged. *)
Lemma process_file_pdf_unstaged file (st : loader_state sv) e :
  type file = "application/pdf" ->
  open_for_writing sv (temp_path file) = Err e ->
  process_file file st =
  (Continue tt,
   {| documents := documents st;
      outer := draw (st_error_processing (name file) e) (outer st) |}).
Proof.
  intros Hty Hopen. unfold process_file, try_except, bind, read.
  rewrite decide_False by (rewrite Hty; discriminate).
  rewrite decide_True by exact Hty.
  unfold in_world, open_write; simpl.
  rewrite Hopen; simpl. destruct st; reflexivity.
Qed.

Lemma process_file_unsupported file (st : loader_state sv) :
  type file ≠ "text/plain" ->
  type file ≠ "application/pdf" ->
  process_file file st =
  (Continue tt,
   {| documents := documents st;
      outer := draw (st_error_unsupported (name file)) (outer st) |}).
Proof.
  intros Hty1 Hty2. unfold process_file, try_except, bind, read.
  rewrite decide_False by exact Hty1.
  rewrite decide_False by exact Hty2.
  reflexivity.
Qed.

Lemma stages_and_draws_only_refl (w : world sv) : stages_and_draws_only w w.
Proof.
  unfold stages_and_draws_only. repeat split. exists [].
  split; [symmetry; apply app_nil_r | constructor].
Qed.

Lemma stages_and_draws_only_trans (w1 w2 w3 : world sv) :
  stages_and_draws_only w1 w2 ->
  stages_and_draws_only w2 w3 ->
  stages_and_draws_only w1 w3.
Proof.
  intros (Hs1 & He1 & Hl1 & evs1 & Hu1 & Hf1) (Hs2 & He2 & Hl2 & evs2 & Hu2 & Hf2).
  unfold stages_and_draws_only. repeat split; try congruence.
  exists (evs1 ++ evs2). split.
  - rewrite Hu2, Hu1. symmetry. apply app_assoc.
  - apply Forall_app. split; assumption.
Qed.

Lemma stages_and_draws_only_fs f (w : world sv) :
  stages_and_draws_only w (set_fs f w).
Proof.
  unfold stages_and_draws_only. repeat split. exists [].
  split; [symmetry; apply app_nil_r | constructor].
Qed.

Lemma stages_and_draws_only_draw ev (w : world sv) :
  is_file_error ev ->
  stages_and_draws_only w (draw ev w).
Proof.
  intros Hev. unfold stages_and_draws_only. repeat split. exists [ev].
  split; [reflexivity | repeat constructor; exact Hev].
Qed.

Create HintDb loader.
#[local] Hint Resolve stages_and_draws_only_refl stages_and_draws_only_fs
  stages_and_draws_only_draw : loader.

(** One loop iteration always falls through, extends [documents] by the
    file's result and touches only the disk and the page. *)
Lemma process_file_spec file (st : loader_state sv) :
  ∃ w', process_file file st =
        (Continue tt,
         {| documents := documents st ++ spec_file_result sv file; outer := w' |})
        ∧ stages_and_draws_only (outer st) w'.
Proof.
  unfold spec_file_result.
  destruct (decide (type file = "text/plain")) as [Htxt|Htxt].
  - destruct (decode_utf8 (getvalue file)) as [t|e] eqn:Hdec.
    + rewrite (process_file_text_ok file st t Htxt Hdec).
      eexists; split; [reflexivity | auto with loader].
    + rewrite (process_file_text_bad file st e Htxt Hdec), app_nil_r.
      eexists; split; [reflexivity | apply stages_and_draws_only_draw; exact I].
  - destruct (decide (type file = "application/pdf")) as [Hpdf|Hpdf].
    + fold (temp_path file).
      destruct (open_for_writing sv (temp_path file)) as [[]|e] eqn:Hopen.
      2:{ rewrite (process_file_pdf_unstaged file st e Hpdf Hopen), app_nil_r.
          eexists; split; [reflexivity | apply stages_and_draws_only_draw; exact I]. }
      destruct (load_data sv (temp_path file) (getvalue file)) as [docs|e] eqn:Hload.
      * rewrite (process_file_pdf_ok file st docs Hpdf Hopen Hload).
        eexists; split; [reflexivity |].
        eapply stages_and_draws_only_trans;
          [apply stages_and_draws_only_fs | apply stages_and_draws_only_fs].
      * rewrite (process_file_pdf_bad file st e Hpdf Hopen Hload), app_nil_r.
        eexists; split; [reflexivity |].
        eapply stages_and_draws_only_trans;
          [apply stages_and_draws_only_fs | apply stages_and_draws_only_draw; exact I].
    + rewrite (process_file_unsupported file st Htxt Hpdf), app_nil_r.
      eexists; split; [reflexivity | apply stages_and_draws_only_draw; exact I].
Qed.

Lemma process_loop_spec files (st : loader_state sv) :
  ∃ w', for_each files process_file st =
        (Continue tt,
         {| documents := documents st ++ concat (map (spec_file_result sv) files);
            outer := w' |})
        ∧ stages_and_draws_only (outer st) w'.
Proof.
  revert st. induction files as [|file files IH]; intros st; simpl.
  - exists (outer st). rewrite app_nil_r. destruct st; simpl.
    split; [reflexivity | auto with loader].
  - destruct (process_file_spec file st) as (w1 & Hrun & Hframe1).
    unfold bind. rewrite Hrun.
    destruct (IH {| documents := documents st ++ spec_file_result sv file; outer := w1 |})
      as (w2 & Hrest & Hframe2).
    exists w2. rewrite Hrest. simpl. rewrite <- app_assoc.
    split; [reflexivity |].
    eapply stages_and_draws_only_trans; eassumption.
Qed.

(** The loader always returns normally; its result is the concatenation of
    the per-file results and does not depend on the world it runs in. *)
Lemma process_uploaded_files_spec files (w : world sv) :
  ∃ w', process_uploaded_files files w =
        (Continue (concat (map (spec_file_result sv) files)), w')
        ∧ stages_and_draws_only w w'.
Proof.
  unfold process_uploaded_files.
  destruct (process_loop_spec files {| documents := []; outer := w |})
    as (w' & Hrun & Hframe).
  rewrite Hrun. simpl. eauto.
Qed.

Lemma loader_documents_spec files :
  loader_documents sv files = concat (map (spec_file_result sv) files).
Proof.
  unfold loader_documents.
  destruct (process_uploaded_files_spec files (fresh_world ∅ ∅)) as (w' & Hrun & _).
  rewrite Hrun. reflexivity.
Qed.

Lemma process_uploaded_files_documents files (w : world sv) :
  ∃ w', process_uploaded_files files w = (Continue (loader_documents sv files), w')
        ∧ stages_and_draws_only w w'.
Proof.
  rewrite loader_documents_spec. apply process_uploaded_files_spec.
Qed.

End LoaderFacts.

Section LoaderClaims.

Context (sv : Services).

Lemma file_fails_no_result file :
  file_fails sv file -> spec_file_result sv file = [].
Proof.
  unfold file_fails, spec_file_result.
  intros [[Hty Hdec] | [[Hty [e Hload]] | [Htxt Hpdf]]].
  - rewrite decide_True by exact Hty. rewrite Hdec. reflexivity.
  - rewrite decide_False by (rewrite Hty; discriminate).
    rewrite decide_True by exact Hty. rewrite Hload.
    destruct (open_for_writing sv ("temp_" ++ name file)); reflexivity.
  - rewrite decide_False by exact Htxt. rewrite decide_False by exact Hpdf.
    reflexivity.
Qed.

(** A failing file leaves [documents] alone and draws exactly one error
    entry, which names the file; the loop goes on. *)
Lemma process_file_fails file (st : loader_state sv) :
  file_fails sv file ->
  ∃ ev w1,
    is_error_for file ev
    ∧ process_file file st = (Continue tt, {| documents := documents st; outer := w1 |})
    ∧ ui w1 = ui (outer st) ++ [ev].
Proof.
  unfold file_fails, is_error_for.
  intros [[Hty Hdec] | [[Hty [e Hload]] | [Htxt Hpdf]]].
  - eexists _, _. rewrite (process_file_text_bad sv file st _ Hty Hdec).
    split; [right; eexists; reflexivity | split; reflexivity].
  - destruct (open_for_writing sv (temp_path file)) as [[]|e0] eqn:Hopen.
    + eexists _, _. rewrite (process_file_pdf_bad sv file st e Hty Hopen Hload).
      split; [right; eexists; reflexivity | split; reflexivity].
    + eexists _, _. rewrite (process_file_pdf_unstaged sv file st e0 Hty Hopen).
      split; [right; eexists; reflexivity | split; reflexivity].
  - eexists _, _. rewrite (process_file_unsupported sv file st Htxt Hpdf).
    split; [left; reflexivity | split; reflexivity].
Qed.

(** Entries drawn while a batch is processed: the failing file's entry is
    among them. *)
Lemma process_loop_draws_error before file after (st : loader_state sv) :
  file_fails sv file ->
  ∃ ev evs,
    is_error_for file ev
    ∧ ui (outer (snd (for_each (before ++ file :: after) process_file st)))
      = ui (outer st) ++ evs
    ∧ In ev evs.
Proof.
  intros Hfail.
  rewrite for_each_app. unfold bind.
  destruct (process_loop_spec sv before st) as (w1 & Hbefore & (_ & _ & _ & evs1 & Hui1 & _)).
  rewrite Hbefore. simpl.
  set (st1 := {| documents := documents st ++ concat (map (spec_file_result sv) before);
                 outer := w1 |}).
  destruct (process_file_fails file st1 Hfail) as (ev & w2 & Hev & Hrun & Hui2).
  unfold bind. rewrite Hrun.
  destruct (process_loop_spec sv after {| documents := documents st1; outer := w2 |})
    as (w3 & Hafter & (_ & _ & _ & evs3 & Hui3 & _)).
  rewrite Hafter. simpl in *.
  exists ev, (evs1 ++ [ev] ++ evs3). split; [exact Hev | split].
  - rewrite Hui3, Hui2, Hui1. rewrite <- !app_assoc. reflexivity.
  - apply in_or_app. right. left. reflexivity.
Qed.

(** C5. In a batch, a file whose processing fails (invalid UTF-8 in a
    plain-text file, a PDF the extraction service rejects, or an unsupported
    declared type) never aborts the batch: the loader returns normally, the
    documents it returns are those it returns for the batch without that
    file, the file itself adds no Document, and an error entry naming the
    file is drawn. *)
Theorem failing_file_does_not_abort_batch
    (before after : list UploadedFile) (file : UploadedFile) (w : world sv) :
  file_fails sv file ->
  ∃ docs w',
    process_uploaded_files (before ++ file :: after) w = (Continue docs, w')
    ∧ fst (process_uploaded_files (before ++ after) w) = Continue docs
    ∧ (∀ st : loader_state sv,
         fst (process_file file st) = Continue tt
         ∧ documents (snd (process_file file st)) = documents st)
    ∧ ∃ ev evs, is_error_for file ev ∧ ui w' = ui w ++ evs ∧ In ev evs.
Proof.
  intros Hfail.
  destruct (process_uploaded_files_spec sv (before ++ file :: after) w)
    as (w' & Hrun & _).
  destruct (process_uploaded_files_spec sv (before ++ after) w) as (w'' & Hrun' & _).
  exists (concat (map (spec_file_result sv) (before ++ after))), w'.
  split; [| split; [| split]].
  - rewrite Hrun. f_equal. f_equal.
    rewrite !map_app, !concat_app. simpl.
    rewrite (file_fails_no_result file Hfail). reflexivity.
  - rewrite Hrun'. reflexivity.
  - intros st.
    destruct (process_file_fails file st Hfail) as (ev & w1 & _ & Hstep & _).
    rewrite Hstep. split; reflexivity.
  - destruct (process_loop_draws_error before file after
                {| documents := []; outer := w |} Hfail)
      as (ev & evs & Hev & Hui & Hin).
    exists ev, evs. split; [exact Hev | split; [| exact Hin]].
    revert Hrun Hui. unfold process_uploaded_files.
    destruct (for_each (before ++ file :: after) process_file
                {| documents := []; outer := w |}) as [[[]| | |] st'];
      simpl; intros Hrun Hui; inversion Hrun; subst; exact Hui.
Qed.

(** C10. The loader preserves input order: whatever the world, the list it
    returns is the concatenation, file by file in input order, of the
    per-file results: one Document for a plain-text file that decodes, the
    extracted Documents for a PDF that is staged and extracted, and nothing
    for a file that fails (also one whose staging file cannot be opened) or
    is unsupported. *)
Theorem loader_preserves_input_order (files : list UploadedFile) (w : world sv) :
  fst (process_uploaded_files files w)
  = Continue (concat (map (spec_file_result sv) files)).
Proof.
  destruct (process_uploaded_files_spec sv files w) as (w' & Hrun & _).
  rewrite Hrun. reflexivity.
Qed.

End LoaderClaims.

Lemma failing_file_does_not_abort_batch_witness :
  file_fails demo_services bad_txt
  ∧ ∃ docs w',
      process_uploaded_files ([sky_txt] ++ bad_txt :: [good_pdf])
        (fresh_world (sv := demo_services) ∅ ∅) = (Continue docs, w')
      ∧ List.length docs = 2.
Proof.
  assert (Hfail : file_fails demo_services bad_txt)
    by (left; split; reflexivity).
  split; [exact Hfail |].
  destruct (failing_file_does_not_abort_batch demo_services [sky_txt] [good_pdf]
              bad_txt (fresh_world ∅ ∅) Hfail)
    as (docs & w' & Hrun & Hsame & _).
  exists docs, w'. split; [exact Hrun |].
  vm_compute in Hsame. inversion Hsame. reflexivity.
Defined.

Section StagingFacts.

Context (sv : Services).

(** When extraction succeeds the staging file is removed again. *)
Lemma staged_pdf_removed_on_success file docs (w : world sv) :
  type file = "application/pdf" ->
  open_for_writing sv (temp_path file) = Ok tt ->
  load_data sv (temp_path file) (getvalue file) = Ok docs ->
  fs (snd (process_uploaded_files [file] w)) !! temp_path file = None.
Proof.
  intros Hty Hopen Hload. unfold process_uploaded_files. simpl. unfold bind.
  rewrite (process_file_pdf_ok sv file _ docs Hty Hopen Hload). simpl.
  apply lookup_delete_eq.
Qed.

(** When extraction raises, the handler on line 55 is entered with the
    staging file still on disk, and nothing removes it afterwards. *)
Lemma staged_pdf_left_on_failure file e (w : world sv) :
  type file = "application/pdf" ->
  open_for_writing sv (temp_path file) = Ok tt ->
  load_data sv (temp_path file) (getvalue file) = Err e ->
  fs (snd (process_uploaded_files [file] w)) !! temp_path file = Some (getvalue file).
Proof.
  intros Hty Hopen Hload. unfold process_uploaded_files. simpl. unfold bind.
  rewrite (process_file_pdf_bad sv file _ e Hty Hopen Hload). simpl.
  apply lookup_insert_eq.
Qed.

End StagingFacts.

(** C1. The staging file is not removed on every exit path.  On an empty
    disk, loading the one-file batch [broken_pdf], which the PDF reader
    rejects, returns normally with no Document and one error entry, and
    [temp_broken.pdf], created during the call, is still on disk with the
    uploaded bytes; the same call on [good_pdf] leaves no staging file. *)
Theorem staging_file_survives_failed_extraction :
  let w0 := fresh_world (sv := demo_services) ∅ ∅ in
  let r := process_uploaded_files [broken_pdf] w0 in
  fs w0 !! "temp_broken.pdf" = None
  ∧ fst r = Continue []
  ∧ ui (snd r)
    = [st_error_processing "broken.pdf" (ExternalError "invalid pdf header")]
  ∧ fs (snd r) !! "temp_broken.pdf" = Some (getvalue broken_pdf)
  ∧ fs (snd (process_uploaded_files [good_pdf] w0)) !! "temp_paper.pdf" = None.
Proof.
  cbv zeta. split; [reflexivity | split; [reflexivity | split; [reflexivity | split]]].
  - apply (staged_pdf_left_on_failure demo_services broken_pdf
             (ExternalError "invalid pdf header")); reflexivity.
  - apply (staged_pdf_removed_on_success demo_services good_pdf
             [ {| text := "%PDF-1.4 text"; metadata := [("file_path", "temp_paper.pdf")] |} ]);
      reflexivity.
Qed.

(** C2, as stated, fails: the plain-text file [empty_txt] decodes to the
    empty string, and the loader returns a Document with empty text for it
    and draws no error entry. *)
Lemma empty_text_document_is_returned :
  decode_utf8 (getvalue empty_txt) = Ok ""
  ∧ process_uploaded_files [empty_txt] (fresh_world (sv := demo_services) ∅ ∅)
    = (Continue [ {| text := ""; metadata := [("filename", "empty.txt")] |} ],
       fresh_world ∅ ∅)
  ∧ ¬ (∀ (sv : Services) (files : list UploadedFile) (w : world sv) docs d,
         fst (process_uploaded_files files w) = Continue docs ->
         In d docs -> text d ≠ "").
Proof.
  split; [reflexivity | split; [reflexivity |]].
  intros Hclaim.
  apply (Hclaim demo_services [empty_txt] (fresh_world ∅ ∅)
           [ {| text := ""; metadata := [("filename", "empty.txt")] |} ]
           {| text := ""; metadata := [("filename", "empty.txt")] |}).
  - reflexivity.
  - left. reflexivity.
  - reflexivity.
Qed.

(** Runs the monadic plumbing of the script as far as the next test on an
    input or on the result of an external call. *)
Ltac run_script :=
  cbv beta iota zeta delta
    [bind ret modify gets raise return_ rerun lift_result st_draw
     setup_streamlit_page setup_openai_api initialize_llm_and_settings
     initialize_chat_engine messages_append session_messages negb list_truthy].

Section PageFacts.

Context (sv : Services).

Implicit Types (w : world sv) (i : run_input).

Lemma str_truthy_true (s : string) : s ≠ "" -> str_truthy s = true.
Proof. intros Hs. unfold str_truthy. rewrite decide_False by exact Hs. reflexivity. Qed.

(** *** Lines 73-104 *)

Lemma upload_section_no_key i w :
  api_key_input i = "" ->
  main_upload_section i w
  = (Returned, draw st_warning_api_key (draw st_sidebar_text_input (draw st_title w))).
Proof.
  intros Hkey. unfold main_upload_section. run_script.
  rewrite Hkey. reflexivity.
Qed.

Lemma upload_section_no_files i w :
  api_key_input i ≠ "" ->
  uploaded i = [] ->
  main_upload_section i w
  = (Continue tt,
     draw st_sidebar_file_uploader
       (draw st_sidebar_header
          (set_environ "OPENAI_API_KEY" (api_key_input i)
             (draw st_sidebar_text_input (draw st_title w))))).
Proof.
  intros Hkey Hfiles. unfold main_upload_section. run_script.
  rewrite (str_truthy_true _ Hkey). run_script.
  rewrite (str_truthy_true _ Hkey), Hfiles. reflexivity.
Qed.

Lemma upload_section_batch i w :
  api_key_input i ≠ "" ->
  uploaded i ≠ [] ->
  ∃ w2,
    stages_and_draws_only (before_loader i w) w2
    ∧ main_upload_section i w
      = match loader_documents sv (uploaded i) with
        | [] => (Returned, draw st_error_no_documents w2)
        | (_ :: _) as docs =>
            let w3 := draw (st_sidebar_success (List.length docs)) w2 in
            match from_documents sv docs with
            | Err e => (Raised e, w3)
            | Ok index =>
                match as_chat_engine sv index with
                | Err e => (Raised e, w3)
                | Ok engine =>
                    (Continue tt,
                     draw st_success_processed (set_session (set_chat_engine engine) w3))
                end
            end
        end.
Proof.
  intros Hkey Hfiles.
  destruct (process_uploaded_files_documents sv (uploaded i) (before_loader i w))
    as (w2 & Hrun & Hframe).
  exists w2. split; [exact Hframe |].
  unfold main_upload_section. run_script.
  rewrite (str_truthy_true _ Hkey). run_script.
  rewrite (str_truthy_true _ Hkey). run_script.
  destruct (uploaded i) as [|file files] eqn:Hup; [congruence |].
  unfold before_loader in Hrun. rewrite Hrun.
  destruct (loader_documents sv (file :: files)) as [|d docs]; simpl; [reflexivity |].
  destruct (from_documents sv (d :: docs)) as [index|e]; simpl; [| reflexivity].
  unfold initialize_chat_engine.
  destruct (as_chat_engine sv index) as [engine|e]; simpl; reflexivity.
Qed.

(** *** Lines 107-113 *)

Lemma for_each_draw (ms : list Message) w :
  for_each ms (fun message =>
    st_draw sv (st_chat_message (role message)) ;;;
    st_draw sv (st_markdown (content message))) w
  = (Continue tt, fold_left draw_message ms w).
Proof.
  revert w. induction ms as [|m ms IH]; intros w; simpl; [reflexivity |].
  unfold bind. simpl. apply IH.
Qed.

Lemma fold_draw_session (ms : list Message) w :
  session (fold_left draw_message ms w) = session w
  ∧ fs (fold_left draw_message ms w) = fs w
  ∧ ui (fold_left draw_message ms w) = ui w ++ concat (map show ms).
Proof.
  revert w. induction ms as [|m ms IH]; intros w; simpl.
  - rewrite app_nil_r. auto.
  - destruct (IH (draw_message w m)) as (Hs & Hf & Hu).
    rewrite Hs, Hf, Hu. simpl. rewrite <- !app_assoc. auto.
Qed.

Lemma history_section_spec w :
  ∃ w', main_history_section w = (Continue tt, w')
        ∧ chat_engine (session w') = chat_engine (session w)
        ∧ messages (session w') = Some (transcript w)
        ∧ fs w' = fs w
        ∧ ui w' = ui w ++ concat (map show (transcript w)).
Proof.
  unfold main_history_section, bind, gets, session_messages, transcript.
  destruct (messages (session w)) as [ms|] eqn:Hms; simpl.
  - rewrite Hms. rewrite for_each_draw.
    eexists. split; [reflexivity |].
    destruct (fold_draw_session ms w) as (Hs & Hf & Hu).
    rewrite Hs, Hf, Hu, Hms. auto.
  - eexists. split; [reflexivity |]. simpl. rewrite app_nil_r. auto.
Qed.

(** *** Lines 116-137 *)

Lemma chat_section_no_engine i w :
  chat_engine (session w) = None ->
  main_chat_section i w = (Continue tt, draw st_info_upload_first w).
Proof.
  intros He. unfold main_chat_section, bind, gets. rewrite He. reflexivity.
Qed.

Lemma chat_section_no_prompt i w e :
  chat_engine (session w) = Some e ->
  chat_input_value i = None ∨ chat_input_value i = Some "" ->
  main_chat_section i w = (Continue tt, draw st_chat_input w).
Proof.
  intros He Hp. unfold main_chat_section, bind, gets. rewrite He. simpl.
  destruct Hp as [-> | ->]; reflexivity.
Qed.

Lemma chat_section_answer i w e ms prompt resp e' :
  chat_engine (session w) = Some e ->
  messages (session w) = Some ms ->
  chat_input_value i = Some prompt ->
  prompt ≠ "" ->
  chat sv e prompt = (Ok resp, e') ->
  ∃ w', main_chat_section i w = (Continue tt, w')
        ∧ session w'
          = {| chat_engine := Some e';
               messages := Some (ms ++ [ {| role := "user"; content := prompt |};
                                         {| role := "assistant"; content := response resp |} ]) |}
        ∧ fs w' = fs w
        ∧ ui w' = ui w ++ [ st_chat_input;
                            st_chat_message "user"; st_markdown prompt;
                            st_chat_message "assistant"; st_markdown (response resp);
                            st_expander_debug resp ].
Proof.
  intros He Hms Hp Hne Hchat.
  unfold main_chat_section, bind, gets. rewrite He, Hp. simpl.
  rewrite (str_truthy_true _ Hne).
  unfold messages_append, session_messages, chat_engine_chat, bind. simpl.
  rewrite Hms. simpl. rewrite He, Hchat. simpl.
  eexists. split; [reflexivity |]. simpl.
  rewrite <- !app_assoc. auto.
Qed.

Lemma chat_section_failure i w e ms prompt exc e' :
  chat_engine (session w) = Some e ->
  messages (session w) = Some ms ->
  chat_input_value i = Some prompt ->
  prompt ≠ "" ->
  chat sv e prompt = (Err exc, e') ->
  ∃ w', main_chat_section i w = (Raised exc, w')
        ∧ session w'
          = {| chat_engine := Some e';
               messages := Some (ms ++ [ {| role := "user"; content := prompt |} ]) |}
        ∧ fs w' = fs w
        ∧ ui w' = ui w ++ [ st_chat_input;
                            st_chat_message "user"; st_markdown prompt;
                            st_chat_message "assistant" ].
Proof.
  intros He Hms Hp Hne Hchat.
  unfold main_chat_section, bind, gets. rewrite He, Hp. simpl.
  rewrite (str_truthy_true _ Hne).
  unfold messages_append, session_messages, chat_engine_chat, bind. simpl.
  rewrite Hms. simpl. rewrite He, Hchat. simpl.
  eexists. split; [reflexivity |]. simpl.
  rewrite <- !app_assoc. auto.
Qed.

(** *** Lines 140-142 *)

Lemma reset_section_idle i w :
  reset_button i = false ->
  main_reset_section i w = (Continue tt, draw st_sidebar_button w).
Proof.
  intros Hb. unfold main_reset_section, bind. simpl. rewrite Hb. reflexivity.
Qed.

Lemma reset_section_clicked i w :
  reset_button i = true ->
  main_reset_section i w
  = (Rerun, set_session (set_messages []) (draw st_sidebar_button w)).
Proof.
  intros Hb. unfold main_reset_section, bind. simpl. rewrite Hb. reflexivity.
Qed.

(** *** The script as a whole *)

Lemma main_split i w :
  main i w
  = match main_before_chat i w with
    | (Continue _, w1) =>
        match main_chat_section i w1 with
        | (Continue _, w2) => main_reset_section i w2
        | (Returned, w2) => (Returned, w2)
        | (Raised e, w2) => (Raised e, w2)
        | (Rerun, w2) => (Rerun, w2)
        end
    | (Returned, w1) => (Returned, w1)
    | (Raised e, w1) => (Raised e, w1)
    | (Rerun, w1) => (Rerun, w1)
    end.
Proof.
  unfold main, main_before_chat, bind.
  destruct (main_upload_section i w) as [[[]| | |] w0]; reflexivity.
Qed.

End PageFacts.

Section RunFacts.

Context (sv : Services).

Implicit Types (w : world sv) (i : run_input).

Lemma no_chat_input_file_errors (evs : list ui_event) :
  Forall is_file_error evs -> ¬ In st_chat_input evs.
Proof.
  intros Hall Hin. rewrite Forall_forall in Hall.
  apply (Hall st_chat_input). apply list_elem_of_In. exact Hin.
Qed.

Lemma no_chat_input_history (ms : list Message) :
  ¬ In st_chat_input (concat (map show ms)).
Proof.
  intros Hin. apply in_concat in Hin. destruct Hin as (evs & Hevs & Hin).
  apply in_map_iff in Hevs. destruct Hevs as (m & <- & _).
  destruct Hin as [H|[H|[]]]; discriminate H.
Qed.

(** What lines 73-104 can do to the session and the page, however they end. *)
Lemma upload_section_effect i w :
  messages (session (snd (main_upload_section i w))) = messages (session w)
  ∧ (chat_engine (session (snd (main_upload_section i w))) = chat_engine (session w)
     ∨ ∃ e, chat_engine (session (snd (main_upload_section i w))) = Some e)
  ∧ ∃ evs, ui (snd (main_upload_section i w)) = ui w ++ evs ∧ ¬ In st_chat_input evs.
Proof.
  destruct (decide (api_key_input i = "")) as [Hkey|Hkey].
  { rewrite (upload_section_no_key sv i w Hkey). simpl.
    split; [reflexivity | split; [left; reflexivity |]].
    exists [st_title; st_sidebar_text_input; st_warning_api_key].
    rewrite <- !app_assoc. split; [reflexivity |].
    simpl. intros [H|[H|[H|[]]]]; discriminate H. }
  destruct (decide (uploaded i = [])) as [Hup|Hup].
  { rewrite (upload_section_no_files sv i w Hkey Hup). simpl.
    split; [reflexivity | split; [left; reflexivity |]].
    exists [st_title; st_sidebar_text_input; st_sidebar_header; st_sidebar_file_uploader].
    rewrite <- !app_assoc. split; [reflexivity |].
    simpl. intros [H|[H|[H|[H|[]]]]]; discriminate H. }
  destruct (upload_section_batch sv i w Hkey Hup)
    as (w2 & (Hs & _ & _ & evs & Hui & Hall) & Hrun).
  assert (Hquiet : ∀ tl, ¬ In st_chat_input tl ->
            ¬ In st_chat_input
                ([st_title; st_sidebar_text_input; st_sidebar_header;
                  st_sidebar_file_uploader] ++ evs ++ tl)).
  { intros tl Htl Hin. simpl in Hin.
    destruct Hin as [H|[H|[H|[H|Hin]]]]; try discriminate H.
    apply in_app_or in Hin. destruct Hin as [Hin|Hin]; [| exact (Htl Hin)].
    exact (no_chat_input_file_errors evs Hall Hin). }
  assert (Hui2 : ui w2 = ui w ++ [st_title; st_sidebar_text_input; st_sidebar_header;
                                  st_sidebar_file_uploader] ++ evs).
  { rewrite Hui. unfold before_loader. simpl. rewrite <- !app_assoc. reflexivity. }
  simpl in Hs.
  rewrite Hrun. clear Hrun.
  destruct (loader_documents sv (uploaded i)) as [|d docs].
  { simpl. split; [rewrite Hs; reflexivity | split; [left; rewrite Hs; reflexivity |]].
    eexists. rewrite Hui2, <- !app_assoc. split; [reflexivity |].
    apply Hquiet. intros [H|[]]. discriminate H. }
  cbv zeta.
  destruct (from_documents sv (d :: docs)) as [index|e].
  2:{ simpl. split; [rewrite Hs; reflexivity | split; [left; rewrite Hs; reflexivity |]].
      eexists. rewrite Hui2, <- !app_assoc. split; [reflexivity |].
      apply Hquiet. intros [H|[]]. discriminate H. }
  destruct (as_chat_engine sv index) as [engine|e].
  2:{ simpl. split; [rewrite Hs; reflexivity | split; [left; rewrite Hs; reflexivity |]].
      eexists. rewrite Hui2, <- !app_assoc. split; [reflexivity |].
      apply Hquiet. intros [H|[]]. discriminate H. }
  simpl. split; [rewrite Hs; reflexivity | split; [right; eexists; reflexivity |]].
  eexists. rewrite Hui2, <- !app_assoc. split; [reflexivity |].
  apply Hquiet. intros [H|[H|[]]]; discriminate H.
Qed.

(** What lines 73-113 can do, however they end. *)
Lemma before_chat_effect i w :
  transcript (snd (main_before_chat i w)) = transcript w
  ∧ (fst (main_before_chat i w) = Continue tt ->
     messages (session (snd (main_before_chat i w))) = Some (transcript w))
  ∧ (chat_engine (session (snd (main_before_chat i w))) = chat_engine (session w)
     ∨ ∃ e, chat_engine (session (snd (main_before_chat i w))) = Some e)
  ∧ ∃ evs, ui (snd (main_before_chat i w)) = ui w ++ evs ∧ ¬ In st_chat_input evs.
Proof.
  destruct (upload_section_effect i w) as (Hm & He & evs & Hui & Hquiet).
  unfold main_before_chat, bind.
  destruct (main_upload_section i w) as [[[]| | |] w0]; simpl in *.
  2-4: (split; [unfold transcript; rewrite Hm; reflexivity |];
        split; [discriminate |]; split; [exact He |]; eauto).
  destruct (history_section_spec sv w0) as (w1 & Hrun & He1 & Hm1 & _ & Hui1).
  rewrite Hrun. simpl.
  assert (Ht : transcript w0 = transcript w) by (unfold transcript; rewrite Hm; reflexivity).
  split; [unfold transcript at 1; rewrite Hm1; exact Ht |].
  split; [intros _; rewrite Hm1, Ht; reflexivity |].
  split; [rewrite He1; exact He |].
  exists (evs ++ concat (map show (transcript w0))). rewrite Hui1, Hui, <- app_assoc.
  split; [reflexivity |].
  intros Hin. apply in_app_or in Hin. destruct Hin as [Hin|Hin]; [exact (Hquiet Hin) |].
  exact (no_chat_input_history _ Hin).
Qed.

End RunFacts.

Section TurnClaims.

Context (sv : Services).

Implicit Types (w : world sv) (i : run_input).

(** C3, amended.  When the chat call of a user turn taken in the ready
    state fails, the exception leaves [main], no assistant entry is
    appended, and the transcript has grown by exactly the user entry that
    was appended before the call. *)
Theorem failed_turn_keeps_only_user_entry i w question exc :
  turn_taken i w question (Err exc) ->
  fst (main i w) = Raised exc
  ∧ messages (session (snd (main i w))) = Some (transcript w ++ [user_turn question]).
Proof.
  intros (w1 & e & e' & Hbefore & He & Hq & Hne & Hchat).
  destruct (before_chat_effect sv i w) as (_ & Hms & _).
  rewrite Hbefore in Hms. simpl in Hms. specialize (Hms eq_refl).
  destruct (chat_section_failure sv i w1 e (transcript w) question exc e'
              He Hms Hq Hne Hchat) as (w2 & Hrun & Hs & _).
  rewrite main_split, Hbefore, Hrun. simpl. rewrite Hs. split; reflexivity.
Qed.

(** C9.  A successful user turn appends exactly two entries, the user's
    question and then the assistant's answer; so two successful turns from
    an empty transcript leave four entries, alternating user and assistant. *)
Theorem successful_turn_appends_question_then_answer
    i1 i2 w question1 question2 resp1 resp2 :
  turn_taken i1 w question1 (Ok resp1) ->
  reset_button i1 = false ->
  (fst (main i1 w) = Continue tt
   ∧ messages (session (snd (main i1 w)))
     = Some (transcript w
             ++ [user_turn question1; assistant_turn (response resp1)]))
  ∧ (transcript w = [] ->
     turn_taken i2 (snd (main i1 w)) question2 (Ok resp2) ->
     reset_button i2 = false ->
     transcript (snd (main i2 (snd (main i1 w))))
     = [ user_turn question1; assistant_turn (response resp1);
         user_turn question2; assistant_turn (response resp2) ]
     ∧ List.length (transcript (snd (main i2 (snd (main i1 w))))) = 4).
Proof.
  assert (Hturn : ∀ i w question resp,
            turn_taken i w question (Ok resp) ->
            reset_button i = false ->
            fst (main i w) = Continue tt
            ∧ messages (session (snd (main i w)))
              = Some (transcript w ++ [user_turn question; assistant_turn (response resp)])).
  { clear. intros i w question resp (w1 & e & e' & Hbefore & He & Hq & Hne & Hchat) Hreset.
    destruct (before_chat_effect sv i w) as (_ & Hms & _).
    rewrite Hbefore in Hms. simpl in Hms. specialize (Hms eq_refl).
    destruct (chat_section_answer sv i w1 e (transcript w) question resp e'
                He Hms Hq Hne Hchat) as (w2 & Hrun & Hs & _).
    rewrite main_split, Hbefore, Hrun, (reset_section_idle sv i w2 Hreset). simpl.
    rewrite Hs. split; reflexivity. }
  intros Hturn1 Hreset1.
  destruct (Hturn i1 w question1 resp1 Hturn1 Hreset1) as (Hend1 & Hms1).
  split; [split; assumption |].
  intros Hempty Hturn2 Hreset2.
  destruct (Hturn i2 _ question2 resp2 Hturn2 Hreset2) as (_ & Hms2).
  assert (Ht1 : transcript (snd (main i1 w))
                = [user_turn question1; assistant_turn (response resp1)]).
  { unfold transcript at 1. rewrite Hms1, Hempty. reflexivity. }
  rewrite Ht1 in Hms2. unfold transcript. rewrite Hms2. split; reflexivity.
Qed.

End TurnClaims.

(** C3, as stated, fails: in [ready_world] the transcript is empty; the
    turn asking [quota] makes the engine raise, and afterwards the
    transcript holds the user entry alone. *)
Lemma failed_turn_leaves_user_entry :
  turn_taken (ask "quota") ready_world "quota" (Err (ExternalError "quota exceeded"))
  ∧ transcript ready_world = []
  ∧ fst (main (ask "quota") ready_world) = Raised (ExternalError "quota exceeded")
  ∧ transcript (snd (main (ask "quota") ready_world)) = [user_turn "quota"]
  ∧ ¬ (∀ (sv : Services) (i : run_input) (w : world sv) question exc,
         turn_taken i w question (Err exc) ->
         transcript (snd (main i w)) = transcript w).
Proof.
  assert (Hturn : turn_taken (ask "quota") ready_world "quota"
                    (Err (ExternalError "quota exceeded"))).
  { eexists _, _, _. split; [vm_compute; reflexivity |].
    split; [reflexivity |]. split; [reflexivity |]. split; [discriminate |].
    reflexivity. }
  split; [exact Hturn |]. split; [reflexivity |].
  split; [vm_compute; reflexivity |]. split; [vm_compute; reflexivity |].
  intros Hclaim. specialize (Hclaim demo_services _ _ _ _ Hturn).
  vm_compute in Hclaim. discriminate Hclaim.
Qed.

Lemma failed_turn_keeps_only_user_entry_witness :
  turn_taken (ask "quota") ready_world "quota" (Err (ExternalError "quota exceeded"))
  ∧ messages (session (snd (main (ask "quota") ready_world)))
    = Some (transcript ready_world ++ [user_turn "quota"]).
Proof.
  assert (Hturn : turn_taken (ask "quota") ready_world "quota"
                    (Err (ExternalError "quota exceeded"))).
  { eexists _, _, _. split; [vm_compute; reflexivity |].
    split; [reflexivity |]. split; [reflexivity |]. split; [discriminate |].
    reflexivity. }
  split; [exact Hturn |].
  exact (proj2 (failed_turn_keeps_only_user_entry demo_services _ _ _ _ Hturn)).
Defined.

Lemma successful_turn_appends_question_then_answer_witness :
  let i1 := ask "My favorite color is green." in
  let i2 := ask "What is my favorite color?" in
  transcript ready_world = []
  ∧ transcript (snd (main i2 (snd (main i1 ready_world))))
    = [ user_turn "My favorite color is green.";
        assistant_turn "echo: My favorite color is green.";
        user_turn "What is my favorite color?";
        assistant_turn "echo: What is my favorite color?" ].
Proof.
  cbv zeta. split; [reflexivity |].
  refine (proj1 (proj2 (successful_turn_appends_question_then_answer demo_services
            (ask "My favorite color is green.") (ask "What is my favorite color?")
            ready_world "My favorite color is green." "What is my favorite color?"
            (demo_answer "My favorite color is green.")
            (demo_answer "What is my favorite color?") _ _) _ _ _)).
  - eexists _, _, _. split; [vm_compute; reflexivity |].
    split; [reflexivity |]. split; [reflexivity |]. split; [discriminate |].
    reflexivity.
  - reflexivity.
  - reflexivity.
  - eexists _, _, _. split; [vm_compute; reflexivity |].
    split; [reflexivity |]. split; [reflexivity |]. split; [discriminate |].
    reflexivity.
  - reflexivity.
Defined.

Section BatchClaims.

Context (sv : Services).

Implicit Types (w : world sv) (i : run_input).

(** C4.  When the loader returns no Document for an uploaded batch, [main]
    draws the no-documents error and returns at once: no index is built,
    and [st.session_state] is exactly what it was, so an engine attached by
    an earlier batch stays attached. *)
Theorem empty_batch_leaves_session_unchanged i w :
  api_key_input i ≠ "" ->
  uploaded i ≠ [] ->
  loader_documents sv (uploaded i) = [] ->
  fst (main i w) = Returned
  ∧ session (snd (main i w)) = session w
  ∧ ∃ evs, ui (snd (main i w)) = ui w ++ evs ++ [st_error_no_documents].
Proof.
  intros Hkey Hup Hdocs.
  destruct (upload_section_batch sv i w Hkey Hup)
    as (w2 & (Hs & _ & _ & evs & Hui & _) & Hrun).
  rewrite Hdocs in Hrun. unfold main, bind. rewrite Hrun. simpl.
  split; [reflexivity | split; [exact Hs |]].
  exists ([st_title; st_sidebar_text_input; st_sidebar_header; st_sidebar_file_uploader]
          ++ evs).
  rewrite Hui. unfold before_loader. simpl. rewrite <- !app_assoc. reflexivity.
Qed.

(** C8.  When the batch of a run yields Documents and the index and the
    engine are built from them, the session's engine afterwards is that
    engine, whatever engine the session held before: the engine a turn then
    talks to is the same as in a session that never saw an earlier batch. *)
Theorem new_batch_replaces_engine i w w_other index engine :
  api_key_input i ≠ "" ->
  loader_documents sv (uploaded i) ≠ [] ->
  from_documents sv (loader_documents sv (uploaded i)) = Ok index ->
  as_chat_engine sv index = Ok engine ->
  (fst (main_upload_section i w) = Continue tt
   ∧ session (snd (main_upload_section i w))
     = {| chat_engine := Some engine; messages := messages (session w) |})
  ∧ (fst (main_before_chat i w) = Continue tt
     ∧ chat_engine (session (snd (main_before_chat i w))) = Some engine)
  ∧ chat_engine (session (snd (main_before_chat i w_other)))
    = chat_engine (session (snd (main_before_chat i w))).
Proof.
  intros Hkey Hdocs Hindex Hengine.
  assert (Hup : uploaded i ≠ []).
  { intros Hup. apply Hdocs. rewrite Hup. reflexivity. }
  assert (Hupload : ∀ w0 : world sv,
            fst (main_upload_section i w0) = Continue tt
            ∧ session (snd (main_upload_section i w0))
              = {| chat_engine := Some engine; messages := messages (session w0) |}).
  { intros w0.
    destruct (upload_section_batch sv i w0 Hkey Hup)
      as (w2 & (Hs & _) & Hrun).
    rewrite Hrun. clear Hrun.
    destruct (loader_documents sv (uploaded i)) as [|d docs]; [congruence |].
    cbv zeta. rewrite Hindex, Hengine. simpl. rewrite Hs. split; reflexivity. }
  assert (Hbefore : ∀ w0 : world sv,
            fst (main_before_chat i w0) = Continue tt
            ∧ chat_engine (session (snd (main_before_chat i w0))) = Some engine).
  { intros w0. destruct (Hupload w0) as (Hend & Hs).
    unfold main_before_chat, bind.
    destruct (main_upload_section i w0) as [c w1]. simpl in Hend, Hs. subst c.
    destruct (history_section_spec sv w1) as (w2 & Hrun & He & _).
    rewrite Hrun. simpl. rewrite He, Hs. split; reflexivity. }
  split; [apply Hupload | split; [apply Hbefore |]].
  rewrite (proj2 (Hbefore w)), (proj2 (Hbefore w_other)). reflexivity.
Qed.

End BatchClaims.

Lemma empty_batch_leaves_session_unchanged_witness :
  loader_documents demo_services (uploaded upload_rejected) = []
  ∧ chat_engine (session (snd (main upload_rejected ready_world)))
    = Some ([ {| text := "The sky is blue."; metadata := [("filename", "sky.txt")] |} ], []).
Proof.
  split; [reflexivity |].
  destruct (empty_batch_leaves_session_unchanged demo_services upload_rejected ready_world)
    as (_ & Hs & _).
  - discriminate.
  - discriminate.
  - reflexivity.
  - rewrite Hs. reflexivity.
Defined.

Lemma new_batch_replaces_engine_witness :
  chat_engine (session ready_world)
  = Some ([ {| text := "The sky is blue."; metadata := [("filename", "sky.txt")] |} ], [])
  ∧ chat_engine (session (snd (main_before_chat upload_paper ready_world)))
    = Some ([ {| text := "%PDF-1.4 text"; metadata := [("file_path", "temp_paper.pdf")] |} ],
            []).
Proof.
  split; [reflexivity |].
  refine (proj2 (proj1 (proj2 (new_batch_replaces_engine demo_services upload_paper
            ready_world (fresh_world ∅ ∅)
            [ {| text := "%PDF-1.4 text"; metadata := [("file_path", "temp_paper.pdf")] |} ]
            _ _ _ _ _)))).
  - discriminate.
  - vm_compute. discriminate.
  - reflexivity.
  - reflexivity.
Defined.

Section ReadinessClaims.

Context (sv : Services).

Implicit Types (w : world sv) (i : run_input).

Lemma chat_section_no_messages i w e prompt :
  chat_engine (session w) = Some e ->
  messages (session w) = None ->
  chat_input_value i = Some prompt ->
  prompt ≠ "" ->
  main_chat_section i w = (Raised (AttributeError "messages"), draw st_chat_input w).
Proof.
  intros He Hms Hp Hne. unfold main_chat_section. run_script.
  rewrite He, Hp. run_script. rewrite (str_truthy_true _ Hne). simpl.
  rewrite Hms. reflexivity.
Qed.

(** The chat section never detaches the engine. *)
Lemma chat_section_keeps_engine i w e :
  chat_engine (session w) = Some e ->
  ∃ e2, chat_engine (session (snd (main_chat_section i w))) = Some e2.
Proof.
  intros He.
  destruct (chat_input_value i) as [prompt|] eqn:Hp.
  2:{ rewrite (chat_section_no_prompt sv i w e He (or_introl Hp)). simpl. eauto. }
  destruct (decide (prompt = "")) as [->|Hne].
  { rewrite (chat_section_no_prompt sv i w e He (or_intror Hp)). simpl. eauto. }
  destruct (messages (session w)) as [ms|] eqn:Hms.
  2:{ rewrite (chat_section_no_messages i w e prompt He Hms Hp Hne). simpl. eauto. }
  destruct (chat sv e prompt) as [[resp|exc] e'] eqn:Hchat.
  - destruct (chat_section_answer sv i w e ms prompt resp e' He Hms Hp Hne Hchat)
      as (w' & Hrun & Hs & _).
    rewrite Hrun. simpl. rewrite Hs. simpl. eauto.
  - destruct (chat_section_failure sv i w e ms prompt exc e' He Hms Hp Hne Hchat)
      as (w' & Hrun & Hs & _).
    rewrite Hrun. simpl. rewrite Hs. simpl. eauto.
Qed.

Lemma reset_section_effect i w :
  chat_engine (session (snd (main_reset_section i w))) = chat_engine (session w)
  ∧ (transcript (snd (main_reset_section i w)) = transcript w
     ∨ transcript (snd (main_reset_section i w)) = [])
  ∧ ui (snd (main_reset_section i w)) = ui w ++ [st_sidebar_button].
Proof.
  destruct (reset_button i) eqn:Hb.
  - rewrite (reset_section_clicked sv i w Hb). simpl. auto.
  - rewrite (reset_section_idle sv i w Hb). simpl. auto.
Qed.

(** A run that ends without an engine in the session started without one,
    never offered the chat input, ignored any submitted prompt, and left
    the transcript as it was or empty. *)
Lemma main_uninitialized i w :
  chat_engine (session (snd (main i w))) = None ->
  chat_engine (session w) = None
  ∧ (transcript (snd (main i w)) = transcript w ∨ transcript (snd (main i w)) = [])
  ∧ (∃ evs, ui (snd (main i w)) = ui w ++ evs
            ∧ ¬ In st_chat_input evs
            ∧ (fst (main_before_chat i w) = Continue tt -> In st_info_upload_first evs))
  ∧ main i w = main (no_prompt i) w.
Proof.
  rewrite (main_split sv (no_prompt i) w), (main_split sv i w).
  change (main_before_chat (no_prompt i) w) with (main_before_chat i w).
  destruct (before_chat_effect sv i w) as (Ht & _ & He & evs & Hui & Hquiet).
  destruct (main_before_chat i w) as [[[]| | |] w1]; simpl in *.
  2-4: (intros Hnone; rewrite Hnone in He;
        destruct He as [He|[eng He]]; [| discriminate He];
        split; [symmetry; exact He |]; split; [left; exact Ht |];
        split; [| reflexivity]; exists evs;
        split; [exact Hui | split; [exact Hquiet | discriminate]]).
  destruct (chat_engine (session w1)) as [e|] eqn:He1.
  - destruct (chat_section_keeps_engine i w1 e He1) as (e2 & He2).
    destruct (main_chat_section i w1) as [[[]| | |] w2]; simpl in He2 |- *.
    2-4: (intros Hnone; rewrite Hnone in He2; discriminate He2).
    destruct (reset_section_effect i w2) as (He3 & _).
    intros Hnone. rewrite Hnone, He2 in He3. discriminate He3.
  - rewrite (chat_section_no_engine sv i w1 He1).
    rewrite (chat_section_no_engine sv (no_prompt i) w1 He1).
    change (main_reset_section (no_prompt i)) with (main_reset_section (sv := sv) i).
    destruct (reset_section_effect i (draw st_info_upload_first w1)) as (_ & Ht3 & Hui3).
    intros _. destruct He as [He|[eng He]]; [| discriminate He].
    split; [symmetry; exact He |]. split.
    + destruct Ht3 as [Ht3|Ht3]; [left | right; exact Ht3].
      rewrite Ht3. exact Ht.
    + split; [| reflexivity].
      exists (evs ++ [st_info_upload_first; st_sidebar_button]).
      rewrite Hui3. simpl. rewrite Hui, <- !app_assoc. split; [reflexivity |].
      split.
      * intros Hin. apply in_app_or in Hin. destruct Hin as [Hin|Hin]; [exact (Hquiet Hin) |].
        destruct Hin as [H|[H|[]]]; discriminate H.
      * intros _. apply in_or_app. right. left. reflexivity.
Qed.

(** While no engine is attached the transcript is empty. *)
Lemma uninitialized_transcript_empty w :
  reachable w -> chat_engine (session w) = None -> transcript w = [].
Proof.
  induction 1 as [disk env | w i Hreach IH]; intros Hnone.
  - reflexivity.
  - destruct (main_uninitialized i w Hnone) as (He & [Ht|Ht] & _).
    + rewrite Ht. apply IH. exact He.
    + exact Ht.
Qed.

(** C6.  In a session that has not become ready (no chat engine is in the
    session when a run of the script ends, hence none at any point of the
    run) the run did not offer the chat input, a submitted prompt made no
    difference to what the run did, the upload hint is what line 116 leads
    to, and the transcript is empty. *)
Theorem uninitialized_session_takes_no_turn w i :
  reachable w ->
  chat_engine (session (snd (main i w))) = None ->
  transcript (snd (main i w)) = []
  ∧ main i w = main (no_prompt i) w
  ∧ ∃ evs, ui (snd (main i w)) = ui w ++ evs
           ∧ ¬ In st_chat_input evs
           ∧ (fst (main_before_chat i w) = Continue tt -> In st_info_upload_first evs).
Proof.
  intros Hreach Hnone.
  destruct (main_uninitialized i w Hnone) as (_ & _ & Hui & Hsame).
  split; [| split; assumption].
  apply uninitialized_transcript_empty; [| exact Hnone].
  constructor. exact Hreach.
Qed.

End ReadinessClaims.

Lemma uninitialized_session_takes_no_turn_witness :
  let i := ask_without_upload "What color is the sky?" in
  let w := fresh_world (sv := demo_services) ∅ ∅ in
  chat_engine (session (snd (main i w))) = None
  ∧ transcript (snd (main i w)) = []
  ∧ main i w = main (no_prompt i) w.
Proof.
  cbv zeta. split; [reflexivity |].
  destruct (uninitialized_session_takes_no_turn demo_services (fresh_world ∅ ∅)
              (ask_without_upload "What color is the sky?"))
    as (Ht & Hsame & _).
  - apply reachable_fresh.
  - reflexivity.
  - split; assumption.
Defined.

(** * Further properties of the loader *)

Section LoaderEffects.

Context (sv : Services).

Implicit Types (w : world sv) (st : loader_state sv) (disk : gmap string bytes).

Lemma temp_path_inj (f g : UploadedFile) : temp_path f = temp_path g -> name f = name g.
Proof. unfold temp_path. simpl. intros H. injection H. auto. Qed.

(** One loop iteration, in full: documents, disk, page and the rest. *)
Lemma process_file_effect file st :
  ∃ w', process_file file st
        = (Continue tt,
           {| documents := documents st ++ spec_file_result sv file; outer := w' |})
        ∧ fs w' = file_disk_effect sv file (fs (outer st))
        ∧ ui w' = ui (outer st) ++ file_error_entry sv file
        ∧ session w' = session (outer st)
        ∧ environ w' = environ (outer st)
        ∧ settings_llm w' = settings_llm (outer st).
Proof.
  unfold spec_file_result, file_disk_effect, file_error_entry.
  fold (temp_path file).
  destruct (decide (type file = "text/plain")) as [Htxt|Htxt].
  - destruct (decode_utf8 (getvalue file)) as [t|e] eqn:Hdec.
    + rewrite (process_file_text_ok sv file st t Htxt Hdec).
      eexists; split; [reflexivity |]. simpl. rewrite app_nil_r. auto.
    + rewrite (process_file_text_bad sv file st e Htxt Hdec), app_nil_r.
      eexists; split; [reflexivity |]. simpl. auto.
  - destruct (decide (type file = "application/pdf")) as [Hpdf|Hpdf].
    + destruct (open_for_writing sv (temp_path file)) as [[]|e] eqn:Hopen.
      2:{ rewrite (process_file_pdf_unstaged sv file st e Hpdf Hopen), app_nil_r.
          eexists; split; [reflexivity |]. simpl. auto. }
      destruct (load_data sv (temp_path file) (getvalue file)) as [docs|e] eqn:Hload.
      * rewrite (process_file_pdf_ok sv file st docs Hpdf Hopen Hload).
        eexists; split; [reflexivity |]. simpl.
        rewrite delete_insert_eq, app_nil_r. auto.
      * rewrite (process_file_pdf_bad sv file st e Hpdf Hopen Hload), app_nil_r.
        eexists; split; [reflexivity |]. simpl. auto.
    + rewrite (process_file_unsupported sv file st Htxt Hpdf), app_nil_r.
      eexists; split; [reflexivity |]. simpl. auto.
Qed.

Lemma process_loop_effect files st :
  ∃ w', for_each files process_file st
        = (Continue tt,
           {| documents := documents st ++ concat (map (spec_file_result sv) files);
              outer := w' |})
        ∧ fs w' = fold_left (fun disk file => file_disk_effect sv file disk) files
                    (fs (outer st))
        ∧ ui w' = ui (outer st) ++ concat (map (file_error_entry sv) files)
        ∧ session w' = session (outer st)
        ∧ environ w' = environ (outer st)
        ∧ settings_llm w' = settings_llm (outer st).
Proof.
  revert st. induction files as [|file files IH]; intros st; simpl.
  - exists (outer st). rewrite !app_nil_r. destruct st; simpl.
    repeat split; reflexivity.
  - destruct (process_file_effect file st) as (w1 & Hrun & Hfs1 & Hui1 & Hs1 & He1 & Hl1).
    unfold bind. rewrite Hrun.
    destruct (IH {| documents := documents st ++ spec_file_result sv file; outer := w1 |})
      as (w2 & Hrest & Hfs2 & Hui2 & Hs2 & He2 & Hl2).
    exists w2. rewrite Hrest. simpl in *.
    rewrite <- app_assoc, Hfs2, Hfs1, Hui2, Hui1, <- app_assoc.
    repeat split; congruence.
Qed.

(** The loader, in full. *)
Lemma process_uploaded_files_effect files w :
  ∃ w', process_uploaded_files files w
        = (Continue (concat (map (spec_file_result sv) files)), w')
        ∧ fs w' = fold_left (fun disk file => file_disk_effect sv file disk) files (fs w)
        ∧ ui w' = ui w ++ concat (map (file_error_entry sv) files)
        ∧ session w' = session w
        ∧ environ w' = environ w
        ∧ settings_llm w' = settings_llm w.
Proof.
  unfold process_uploaded_files.
  destruct (process_loop_effect files {| documents := []; outer := w |})
    as (w' & Hrun & Hrest).
  rewrite Hrun. simpl. eauto.
Qed.

(** A path that is no staging path of the batch keeps its content. *)
Lemma disk_effect_other_path files disk (p : string) :
  (∀ file, In file files -> type file = "application/pdf" -> temp_path file ≠ p) ->
  fold_left (fun disk file => file_disk_effect sv file disk) files disk !! p = disk !! p.
Proof.
  revert disk. induction files as [|file files IH]; intros disk Hother; simpl.
  - reflexivity.
  - rewrite IH by (intros g Hg; apply Hother; right; exact Hg).
    unfold file_disk_effect.
    destruct (decide (type file = "text/plain")); [reflexivity |].
    destruct (decide (type file = "application/pdf")) as [Hpdf|]; [| reflexivity].
    assert (Hne : temp_path file ≠ p) by (apply Hother; [left; reflexivity | exact Hpdf]).
    destruct (open_for_writing sv (temp_path file)); [| reflexivity].
    destruct (load_data sv (temp_path file) (getvalue file)).
    + apply lookup_delete_ne. exact Hne.
    + apply lookup_insert_ne. exact Hne.
Qed.

(** A path the platform refuses to open is never touched. *)
Lemma disk_effect_refused_path files disk (p : string) e :
  open_for_writing sv p = Err e ->
  fold_left (fun disk file => file_disk_effect sv file disk) files disk !! p = disk !! p.
Proof.
  intros Hopen. revert disk. induction files as [|file files IH]; intros disk; simpl.
  - reflexivity.
  - rewrite IH. unfold file_disk_effect.
    destruct (decide (type file = "text/plain")); [reflexivity |].
    destruct (decide (type file = "application/pdf")) as [Hpdf|]; [| reflexivity].
    destruct (open_for_writing sv (temp_path file)) as [[]|e0] eqn:Hfile; [| reflexivity].
    assert (Hne : temp_path file ≠ p) by (intros Heq; rewrite Heq in Hfile; congruence).
    destruct (load_data sv (temp_path file) (getvalue file)).
    + apply lookup_delete_ne. exact Hne.
    + apply lookup_insert_ne. exact Hne.
Qed.

Lemma world_eq (w1 w2 : world sv) :
  fs w1 = fs w2 -> environ w1 = environ w2 -> settings_llm w1 = settings_llm w2 ->
  ui w1 = ui w2 -> session w1 = session w2 -> w1 = w2.
Proof. destruct w1, w2; simpl; intros; subst; reflexivity. Qed.

(** Files whose PDFs all extract cannot create a path that is absent. *)
Lemma disk_effect_keeps_absent files disk (p : string) :
  (∀ file, In file files -> type file = "application/pdf" ->
     ∃ docs, load_data sv (temp_path file) (getvalue file) = Ok docs) ->
  disk !! p = None ->
  fold_left (fun disk file => file_disk_effect sv file disk) files disk !! p = None.
Proof.
  revert disk. induction files as [|file files IH]; intros disk Hok Hnone; simpl.
  - exact Hnone.
  - apply IH; [intros g Hg; apply Hok; right; exact Hg |].
    unfold file_disk_effect.
    destruct (decide (type file = "text/plain")); [exact Hnone |].
    destruct (decide (type file = "application/pdf")) as [Hpdf|]; [| exact Hnone].
    destruct (open_for_writing sv (temp_path file)); [| exact Hnone].
    destruct (Hok file (or_introl eq_refl) Hpdf) as (docs & ->).
    destruct (decide (temp_path file = p)) as [->|Hne].
    + apply lookup_delete_eq.
    + rewrite lookup_delete_ne by exact Hne. exact Hnone.
Qed.

(** X1.  The loader draws one error entry for every file that is not
    loaded (text that does not decode, a PDF whose staging file cannot be
    opened or whose extraction raises, an unsupported type) and nothing
    else, in input order, and leaves the session, the environment and the
    settings alone. *)
Theorem loader_draws_one_entry_per_rejected_file files w :
  ui (snd (process_uploaded_files files w))
  = ui w ++ concat (map (file_error_entry sv) files)
  ∧ session (snd (process_uploaded_files files w)) = session w
  ∧ environ (snd (process_uploaded_files files w)) = environ w
  ∧ settings_llm (snd (process_uploaded_files files w)) = settings_llm w.
Proof.
  destruct (process_uploaded_files_effect files w) as (w' & Hrun & _ & Hui & Hrest).
  rewrite Hrun. simpl. auto.
Qed.

(** X2.  The loader touches no path other than the staging paths
    [temp_<name>] of the PDF files of the batch. *)
Theorem loader_touches_only_staging_paths files w (p : string) :
  (∀ file, In file files -> type file = "application/pdf" -> p ≠ temp_path file) ->
  fs (snd (process_uploaded_files files w)) !! p = fs w !! p.
Proof.
  intros Hother.
  destruct (process_uploaded_files_effect files w) as (w' & Hrun & Hfs & _).
  rewrite Hrun. simpl. rewrite Hfs. apply disk_effect_other_path.
  intros file Hin Hpdf Heq. exact (Hother file Hin Hpdf (eq_sym Heq)).
Qed.

(** X3.  When the extraction of every PDF of the batch succeeds, the
    loader leaves no staging file: a staging path of the batch that could
    be opened does not exist afterwards, whether or not a file of that name
    was on disk before the call, and one the platform refused to open is
    as it was, nothing having been created. *)
Theorem loader_leaves_no_staging_file files w :
  (∀ file, In file files -> type file = "application/pdf" ->
     ∃ docs, load_data sv (temp_path file) (getvalue file) = Ok docs) ->
  ∀ file, In file files -> type file = "application/pdf" ->
    fs (snd (process_uploaded_files files w)) !! temp_path file
    = match open_for_writing sv (temp_path file) with
      | Ok _ => None
      | Err _ => fs w !! temp_path file
      end.
Proof.
  intros Hok file Hin Hpdf.
  destruct (process_uploaded_files_effect files w) as (w' & Hrun & Hfs & _).
  rewrite Hrun. simpl. rewrite Hfs. clear Hrun Hfs w'.
  destruct (open_for_writing sv (temp_path file)) as [[]|e] eqn:Hopen.
  2:{ apply (disk_effect_refused_path files (fs w) (temp_path file) e Hopen). }
  generalize (fs w). revert Hok Hin.
  induction files as [|g files IH]; intros Hok Hin disk; [destruct Hin |].
  simpl. destruct Hin as [->|Hin].
  - apply disk_effect_keeps_absent; [intros h Hh; apply Hok; right; exact Hh |].
    unfold file_disk_effect.
    rewrite decide_False by (rewrite Hpdf; discriminate).
    rewrite decide_True by exact Hpdf.
    destruct (Hok file (or_introl eq_refl) Hpdf) as (docs & Hload).
    rewrite Hopen, Hload. apply lookup_delete_eq.
  - apply IH; [intros h Hh; apply Hok; right; exact Hh | exact Hin].
Qed.

(** X4.  A PDF that is staged and whose extraction raises leaves its
    staging file on disk, holding the uploaded bytes, when no later PDF of
    the batch has the same name. *)
Theorem failed_pdf_leaves_staging_file before file after w e :
  type file = "application/pdf" ->
  open_for_writing sv (temp_path file) = Ok tt ->
  load_data sv (temp_path file) (getvalue file) = Err e ->
  (∀ later, In later after -> type later = "application/pdf" ->
     name later ≠ name file) ->
  fs (snd (process_uploaded_files (before ++ file :: after) w))
    !! temp_path file
  = Some (getvalue file).
Proof.
  intros Hpdf Hopen Hload Hlater.
  destruct (process_uploaded_files_effect (before ++ file :: after) w)
    as (w' & Hrun & Hfs & _).
  rewrite Hrun. simpl. rewrite Hfs, fold_left_app. simpl.
  rewrite disk_effect_other_path.
  - unfold file_disk_effect.
    rewrite decide_False by (rewrite Hpdf; discriminate).
    rewrite decide_True by exact Hpdf.
    rewrite Hopen, Hload. apply lookup_insert_eq.
  - intros later Hin Hty Heq. apply (Hlater later Hin Hty).
    apply temp_path_inj. exact Heq.
Qed.

(** X5.  Loading a batch made of two parts is loading the first part and
    then the second in the world the first left: the Documents are those
    of the first part followed by those of the second, and the disk, the
    page and the rest of the world end up the same. *)
Theorem loader_result_of_split_batch (first second : list UploadedFile) w :
  ∃ docs1 docs2,
    fst (process_uploaded_files first w) = Continue docs1
    ∧ fst (process_uploaded_files second (snd (process_uploaded_files first w)))
      = Continue docs2
    ∧ process_uploaded_files (first ++ second) w
      = (Continue (docs1 ++ docs2),
         snd (process_uploaded_files second (snd (process_uploaded_files first w)))).
Proof.
  destruct (process_uploaded_files_effect first w)
    as (w1 & Hrun1 & Hfs1 & Hui1 & Hs1 & He1 & Hl1).
  rewrite Hrun1. simpl.
  destruct (process_uploaded_files_effect second w1)
    as (w2 & Hrun2 & Hfs2 & Hui2 & Hs2 & He2 & Hl2).
  rewrite Hrun2. simpl.
  destruct (process_uploaded_files_effect (first ++ second) w)
    as (w' & Hrun & Hfs & Hui & Hs & He & Hl).
  rewrite Hrun.
  eexists _, _. split; [reflexivity | split; [reflexivity |]].
  rewrite map_app, concat_app. f_equal.
  apply world_eq.
  - rewrite Hfs, Hfs2, Hfs1, fold_left_app. reflexivity.
  - congruence.
  - congruence.
  - rewrite Hui, Hui2, Hui1, map_app, concat_app, app_assoc. reflexivity.
  - congruence.
Qed.

Lemma utf8_valid_ascii (bs : bytes) :
  Forall (fun b => (Byte.to_N b < 0x80)%N) bs -> utf8_valid bs = true.
Proof.
  induction 1 as [|b bs Hb _ IH]; [reflexivity |].
  simpl. unfold in_range at 1.
  replace (Byte.to_N b <=? 0x7F)%N with true
    by (symmetry; apply N.leb_le; lia).
  replace (0x00 <=? Byte.to_N b)%N with true
    by (symmetry; apply N.leb_le; lia).
  simpl. exact IH.
Qed.

(** X6.  A plain-text file whose bytes are all ASCII is always loaded: the
    loader returns one Document holding exactly those bytes as text and the
    file name as [filename], draws nothing and leaves the world as it was. *)
Theorem ascii_text_file_is_loaded file w :
  type file = "text/plain" ->
  Forall (fun b => (Byte.to_N b < 0x80)%N) (getvalue file) ->
  process_uploaded_files [file] w
  = (Continue [ {| text := string_of_list_byte (getvalue file);
                   metadata := [("filename", name file)] |} ], w).
Proof.
  intros Hty Hascii.
  assert (Hdec : decode_utf8 (getvalue file) = Ok (string_of_list_byte (getvalue file))).
  { unfold decode_utf8. rewrite (utf8_valid_ascii _ Hascii). reflexivity. }
  unfold process_uploaded_files. simpl. unfold bind.
  rewrite (process_file_text_ok sv file _ _ Hty Hdec). simpl.
  destruct w; reflexivity.
Qed.

End LoaderEffects.

Section TextClaims.

Context (sv : Services).

Lemma in_spec_file_result file d :
  In d (spec_file_result sv file)
  ↔ (type file = "text/plain"
     ∧ ∃ t, decode_utf8 (getvalue file) = Ok t
            ∧ d = {| text := t; metadata := [("filename", name file)] |})
    ∨ (type file = "application/pdf"
       ∧ open_for_writing sv (temp_path file) = Ok tt
       ∧ ∃ docs, load_data sv (temp_path file) (getvalue file) = Ok docs ∧ In d docs).
Proof.
  unfold spec_file_result. fold (temp_path file).
  destruct (decide (type file = "text/plain")) as [Htxt|Htxt].
  - destruct (decode_utf8 (getvalue file)) as [t|e] eqn:Hdec; simpl.
    + split.
      * intros [<- | []]. left. eauto.
      * intros [(_ & t' & Ht' & ->) | (Hpdf & _)]; [| congruence].
        left. congruence.
    + split; [tauto |].
      intros [(_ & t' & Ht' & _) | (Hpdf & _)]; congruence.
  - destruct (decide (type file = "application/pdf")) as [Hpdf|Hpdf]; simpl.
    2:{ split; [tauto |]. intros [(Hty & _) | (Hty & _)]; contradiction. }
    destruct (open_for_writing sv (temp_path file)) as [[]|e] eqn:Hopen; simpl.
    2:{ split; [tauto |]. intros [(Hty & _) | (_ & Hok & _)]; congruence. }
    destruct (load_data sv (temp_path file) (getvalue file)) as [docs|e] eqn:Hload;
      simpl.
    + split; [intros Hin; right; eauto |].
      intros [(Hty & _) | (_ & _ & docs' & Hdocs' & Hin)]; congruence.
    + split; [tauto |].
      intros [(Hty & _) | (_ & _ & docs' & Hdocs' & _)]; congruence.
Qed.

(** C2, amended.  The loader passes on what each file yields and filters
    nothing.  The Documents it returns are exactly these: for each
    plain-text file of the batch that decodes, the Document carrying the
    decoded text and the file name as [filename]; for each PDF of the batch
    that is staged and extracted, the Documents the extraction service
    returned.  So they all have non-empty text when no plain-text file
    decodes to the empty string and the extraction service returns none
    with empty text.  A plain-text file that decodes, to the empty string
    or to any other, adds exactly one Document at its place in the batch
    and nothing else: the rest of the result and the world afterwards, page
    included, are those of the batch without it, so no error entry is
    drawn for it.  A staged and extracted PDF adds all its Documents at its
    place. *)
Theorem loader_documents_carry_source_text :
  (∀ (files : list UploadedFile) (w : world sv) docs d,
     fst (process_uploaded_files files w) = Continue docs ->
     (In d docs
      ↔ ∃ file, In file files
          ∧ ((type file = "text/plain"
              ∧ ∃ t, decode_utf8 (getvalue file) = Ok t
                     ∧ d = {| text := t; metadata := [("filename", name file)] |})
             ∨ (type file = "application/pdf"
                ∧ open_for_writing sv (temp_path file) = Ok tt
                ∧ ∃ pdf_docs,
                    load_data sv (temp_path file) (getvalue file) = Ok pdf_docs
                    ∧ In d pdf_docs))))
  ∧ (∀ (files : list UploadedFile) (w : world sv) docs,
       (∀ file, In file files -> type file = "text/plain" ->
          decode_utf8 (getvalue file) ≠ Ok "") ->
       (∀ file pdf_docs d, In file files -> type file = "application/pdf" ->
          load_data sv (temp_path file) (getvalue file) = Ok pdf_docs ->
          In d pdf_docs -> text d ≠ "") ->
       fst (process_uploaded_files files w) = Continue docs ->
       ∀ d, In d docs -> text d ≠ "")
  ∧ (∀ (before after : list UploadedFile) (file : UploadedFile) (w : world sv) t,
       type file = "text/plain" ->
       decode_utf8 (getvalue file) = Ok t ->
       ∃ docs1 docs2 w',
         fst (process_uploaded_files before w) = Continue docs1
         ∧ process_uploaded_files (before ++ after) w = (Continue (docs1 ++ docs2), w')
         ∧ process_uploaded_files (before ++ file :: after) w
           = (Continue (docs1
                        ++ {| text := t; metadata := [("filename", name file)] |}
                           :: docs2),
              w'))
  ∧ (∀ (before after : list UploadedFile) (file : UploadedFile) (w : world sv) pdf_docs,
       type file = "application/pdf" ->
       open_for_writing sv (temp_path file) = Ok tt ->
       load_data sv (temp_path file) (getvalue file) = Ok pdf_docs ->
       ∃ docs1 docs2,
         fst (process_uploaded_files before w) = Continue docs1
         ∧ fst (process_uploaded_files (before ++ after) w) = Continue (docs1 ++ docs2)
         ∧ fst (process_uploaded_files (before ++ file :: after) w)
           = Continue (docs1 ++ pdf_docs ++ docs2))
  ∧ (∀ (file : UploadedFile) (w : world sv),
       type file = "text/plain" ->
       decode_utf8 (getvalue file) = Ok "" ->
       process_uploaded_files [file] w
       = (Continue [ {| text := ""; metadata := [("filename", name file)] |} ], w)).
Proof.
  assert (Hsrc : ∀ (files : list UploadedFile) (w : world sv) docs d,
     fst (process_uploaded_files files w) = Continue docs ->
     (In d docs
      ↔ ∃ file, In file files
          ∧ ((type file = "text/plain"
              ∧ ∃ t, decode_utf8 (getvalue file) = Ok t
                     ∧ d = {| text := t; metadata := [("filename", name file)] |})
             ∨ (type file = "application/pdf"
                ∧ open_for_writing sv (temp_path file) = Ok tt
                ∧ ∃ pdf_docs,
                    load_data sv (temp_path file) (getvalue file) = Ok pdf_docs
                    ∧ In d pdf_docs)))).
  { intros files w docs d Hrun.
    destruct (process_uploaded_files_effect sv files w) as (w' & Hspec & _).
    rewrite Hspec in Hrun. simpl in Hrun. inversion Hrun; subst docs.
    rewrite in_concat. split.
    - intros (ds & Hds & Hd).
      apply in_map_iff in Hds. destruct Hds as (file & <- & Hfile).
      exists file. split; [exact Hfile |]. apply in_spec_file_result. exact Hd.
    - intros (file & Hfile & Hcase).
      exists (spec_file_result sv file). split.
      + apply in_map. exact Hfile.
      + apply in_spec_file_result. exact Hcase. }
  split; [exact Hsrc | split; [| split; [| split]]].
  - intros files w docs Htxt Hpdf Hrun d Hin Hempty.
    destruct (proj1 (Hsrc files w docs d Hrun) Hin) as (file & Hfile & [Hcase | Hcase]).
    + destruct Hcase as (Hty & t & Hdec & ->). simpl in Hempty. subst t.
      exact (Htxt file Hfile Hty Hdec).
    + destruct Hcase as (Hty & _ & pdf_docs & Hload & Hd).
      exact (Hpdf file pdf_docs d Hfile Hty Hload Hd Hempty).
  - intros before after file w t Hty Hdec.
    assert (Hres : spec_file_result sv file
                   = [ {| text := t; metadata := [("filename", name file)] |} ]).
    { unfold spec_file_result. rewrite decide_True by exact Hty. rewrite Hdec.
      reflexivity. }
    assert (Hentry : file_error_entry sv file = []).
    { unfold file_error_entry. rewrite decide_True by exact Hty. rewrite Hdec.
      reflexivity. }
    assert (Hdisk : ∀ disk, file_disk_effect sv file disk = disk).
    { intros disk. unfold file_disk_effect. rewrite decide_True by exact Hty.
      reflexivity. }
    destruct (process_uploaded_files_effect sv before w) as (w1 & Hrun1 & _).
    destruct (process_uploaded_files_effect sv (before ++ after) w)
      as (w2 & Hrun2 & Hfs2 & Hui2 & Hs2 & He2 & Hl2).
    destruct (process_uploaded_files_effect sv (before ++ file :: after) w)
      as (w3 & Hrun3 & Hfs3 & Hui3 & Hs3 & He3 & Hl3).
    exists (concat (map (spec_file_result sv) before)),
           (concat (map (spec_file_result sv) after)), w2.
    rewrite Hrun1, Hrun2, Hrun3. simpl.
    split; [reflexivity | split].
    + rewrite map_app, concat_app. reflexivity.
    + rewrite map_app, concat_app. simpl. rewrite Hres. simpl.
      f_equal. apply world_eq.
      * rewrite Hfs3, Hfs2, !fold_left_app. simpl. rewrite Hdisk. reflexivity.
      * congruence.
      * congruence.
      * rewrite Hui3, Hui2, !map_app, !concat_app. simpl. rewrite Hentry.
        reflexivity.
      * congruence.
  - intros before after file w pdf_docs Hty Hopen Hload.
    assert (Hres : spec_file_result sv file = pdf_docs).
    { unfold spec_file_result. fold (temp_path file).
      rewrite decide_False by (rewrite Hty; discriminate).
      rewrite decide_True by exact Hty. rewrite Hopen, Hload. reflexivity. }
    destruct (process_uploaded_files_effect sv before w) as (w1 & Hrun1 & _).
    destruct (process_uploaded_files_effect sv (before ++ after) w) as (w2 & Hrun2 & _).
    destruct (process_uploaded_files_effect sv (before ++ file :: after) w)
      as (w3 & Hrun3 & _).
    exists (concat (map (spec_file_result sv) before)),
           (concat (map (spec_file_result sv) after)).
    rewrite Hrun1, Hrun2, Hrun3. simpl.
    split; [reflexivity | split].
    + rewrite map_app, concat_app. reflexivity.
    + rewrite map_app, concat_app. simpl. rewrite Hres. reflexivity.
  - intros file w Hty Hdec. unfold process_uploaded_files. simpl. unfold bind.
    rewrite (process_file_text_ok sv file _ "" Hty Hdec). simpl.
    destruct w; reflexivity.
Qed.

End TextClaims.

Lemma loader_documents_carry_source_text_witness :
  (∀ d, In d (loader_documents demo_services [sky_txt; png_file; good_pdf]) ->
        text d ≠ "")
  ∧ process_uploaded_files ([sky_txt; bad_txt] ++ empty_txt :: [good_pdf])
      (fresh_world (sv := demo_services) ∅ ∅)
    = (Continue [ {| text := "The sky is blue."; metadata := [("filename", "sky.txt")] |};
                  {| text := ""; metadata := [("filename", "empty.txt")] |};
                  {| text := "%PDF-1.4 text";
                     metadata := [("file_path", "temp_paper.pdf")] |} ],
       snd (process_uploaded_files ([sky_txt; bad_txt] ++ [good_pdf])
              (fresh_world ∅ ∅)))
  ∧ process_uploaded_files [empty_txt] (fresh_world (sv := demo_services) ∅ ∅)
    = (Continue [ {| text := ""; metadata := [("filename", "empty.txt")] |} ],
       fresh_world ∅ ∅).
Proof.
  destruct (loader_documents_carry_source_text demo_services)
    as (_ & Hnonempty & Hplace & _ & Hempty).
  split; [| split].
  - apply (Hnonempty [sky_txt; png_file; good_pdf] (fresh_world ∅ ∅)).
    + intros file [<- | [<- | [<- | []]]] Hty; vm_compute; discriminate.
    + intros file pdf_docs d [<- | [<- | [<- | []]]] Hty; try discriminate Hty.
      vm_compute. intros Hload. inversion Hload; subst pdf_docs.
      intros [<- | []]. discriminate.
    + destruct (process_uploaded_files_documents demo_services
                  [sky_txt; png_file; good_pdf] (fresh_world ∅ ∅)) as (w' & Hrun & _).
      rewrite Hrun. reflexivity.
  - destruct (Hplace [sky_txt; bad_txt] [good_pdf] empty_txt (fresh_world ∅ ∅) "")
      as (docs1 & docs2 & w' & Hrun1 & Hrun2 & Hrun3).
    + reflexivity.
    + reflexivity.
    + rewrite Hrun3, Hrun2. simpl.
      vm_compute in Hrun1. inversion Hrun1; subst docs1.
      assert (Hdocs : fst (process_uploaded_files ([sky_txt; bad_txt] ++ [good_pdf])
                             (fresh_world (sv := demo_services) ∅ ∅))
                      = Continue ([ {| text := "The sky is blue.";
                                       metadata := [("filename", "sky.txt")] |} ]
                                  ++ docs2))
        by (rewrite Hrun2; reflexivity).
      vm_compute in Hdocs. inversion Hdocs; subst docs2. reflexivity.
  - apply (Hempty empty_txt (fresh_world ∅ ∅)); reflexivity.
Defined.

Lemma loader_touches_only_staging_paths_witness :
  let w := fresh_world (sv := demo_services) {[ "notes.txt" := [x41] ]} ∅ in
  fs (snd (process_uploaded_files [good_pdf; broken_pdf] w)) !! "notes.txt" = Some [x41].
Proof.
  cbv zeta.
  rewrite (loader_touches_only_staging_paths demo_services [good_pdf; broken_pdf]
             (fresh_world {[ "notes.txt" := [x41] ]} ∅) "notes.txt").
  - vm_compute. reflexivity.
  - intros file [<- | [<- | []]] _; vm_compute; discriminate.
Defined.

Lemma loader_leaves_no_staging_file_witness :
  let w := fresh_world (sv := demo_services) {[ "temp_paper.pdf" := [x00] ]} ∅ in
  fs w !! "temp_paper.pdf" = Some [x00]
  ∧ fs (snd (process_uploaded_files [good_pdf; sky_txt] w)) !! "temp_paper.pdf" = None.
Proof.
  cbv zeta. split; [vm_compute; reflexivity |].
  etransitivity.
  - apply (loader_leaves_no_staging_file demo_services [good_pdf; sky_txt]
             (fresh_world {[ "temp_paper.pdf" := [x00] ]} ∅) ltac:(
               intros file [<- | [<- | []]] Hty; [| discriminate Hty];
               eexists; vm_compute; reflexivity) good_pdf).
    + left. reflexivity.
    + reflexivity.
  - reflexivity.
Defined.

Lemma failed_pdf_leaves_staging_file_witness :
  fs (snd (process_uploaded_files ([good_pdf] ++ broken_pdf :: [sky_txt; good_pdf])
             (fresh_world (sv := demo_services) ∅ ∅)))
    !! "temp_broken.pdf"
  = Some (getvalue broken_pdf).
Proof.
  apply (failed_pdf_leaves_staging_file demo_services [good_pdf] broken_pdf
           [sky_txt; good_pdf] (fresh_world ∅ ∅) (ExternalError "invalid pdf header")).
  - reflexivity.
  - vm_compute. reflexivity.
  - vm_compute. reflexivity.
  - intros later [<- | [<- | []]] _; vm_compute; discriminate.
Defined.

Lemma ascii_text_file_is_loaded_witness :
  process_uploaded_files [sky_txt] (fresh_world (sv := demo_services) ∅ ∅)
  = (Continue [ {| text := "The sky is blue."; metadata := [("filename", "sky.txt")] |} ],
     fresh_world ∅ ∅).
Proof.
  apply (ascii_text_file_is_loaded demo_services sky_txt (fresh_world ∅ ∅)).
  - reflexivity.
  - vm_compute. repeat (constructor; [reflexivity |]). constructor.
Defined.

(** * Further properties of the page script *)

Section RunEffects.

Context (sv : Services).

Implicit Types (w : world sv) (i : run_input).

(** ** Disk, environment and settings *)

Lemma fold_draw_machine (ms : list Message) w :
  environ (fold_left draw_message ms w) = environ w
  ∧ settings_llm (fold_left draw_message ms w) = settings_llm w.
Proof.
  revert w. induction ms as [|m ms IH]; intros w; simpl; [auto |].
  destruct (IH (draw_message w m)) as (He & Hl). rewrite He, Hl. auto.
Qed.

Lemma history_section_machine w :
  fst (main_history_section w) = Continue tt
  ∧ fs (snd (main_history_section w)) = fs w
  ∧ environ (snd (main_history_section w)) = environ w
  ∧ settings_llm (snd (main_history_section w)) = settings_llm w.
Proof.
  unfold main_history_section, bind, gets, session_messages.
  destruct (messages (session w)) as [ms|] eqn:Hms; simpl.
  - rewrite Hms, (for_each_draw sv). simpl.
    destruct (fold_draw_session sv ms w) as (_ & Hf & _).
    destruct (fold_draw_machine ms w) as (He & Hl).
    auto.
  - auto.
Qed.

Lemma chat_section_machine i w :
  (fst (main_chat_section i w) = Continue tt ∨ ∃ e, fst (main_chat_section i w) = Raised e)
  ∧ fs (snd (main_chat_section i w)) = fs w
  ∧ environ (snd (main_chat_section i w)) = environ w
  ∧ settings_llm (snd (main_chat_section i w)) = settings_llm w.
Proof.
  unfold main_chat_section, chat_engine_chat. run_script.
  destruct (chat_engine (session w)) as [e|] eqn:He; [| simpl; auto].
  destruct (chat_input_value i) as [prompt|]; [| simpl; auto].
  destruct (str_truthy prompt); [| simpl; auto].
  simpl.
  destruct (messages (session w)) as [ms|] eqn:Hms; simpl; [| eauto 6].
  rewrite ?He.
  destruct (chat sv e prompt) as [[resp|exc] e']; simpl; rewrite ?Hms; simpl; eauto 6.
Qed.

Lemma reset_section_machine i w :
  fs (snd (main_reset_section i w)) = fs w
  ∧ environ (snd (main_reset_section i w)) = environ w
  ∧ settings_llm (snd (main_reset_section i w)) = settings_llm w
  ∧ (fst (main_reset_section i w) = if reset_button i then Rerun else Continue tt).
Proof.
  destruct (reset_button i) eqn:Hb.
  - rewrite (reset_section_clicked sv i w Hb). simpl. auto.
  - rewrite (reset_section_idle sv i w Hb). simpl. auto.
Qed.

(** Lines 89-104 with the loader's world written out. *)
Lemma upload_section_batch_loader i w :
  api_key_input i ≠ "" ->
  uploaded i ≠ [] ->
  main_upload_section i w
  = let w2 := snd (process_uploaded_files (uploaded i) (before_loader i w)) in
    match loader_documents sv (uploaded i) with
    | [] => (Returned, draw st_error_no_documents w2)
    | (_ :: _) as docs =>
        let w3 := draw (st_sidebar_success (List.length docs)) w2 in
        match from_documents sv docs with
        | Err e => (Raised e, w3)
        | Ok index =>
            match as_chat_engine sv index with
            | Err e => (Raised e, w3)
            | Ok engine =>
                (Continue tt,
                 draw st_success_processed (set_session (set_chat_engine engine) w3))
            end
        end
    end.
Proof.
  intros Hkey Hfiles.
  destruct (process_uploaded_files_documents sv (uploaded i) (before_loader i w))
    as (w2 & Hrun & _).
  cbv zeta. rewrite Hrun. simpl snd.
  unfold main_upload_section. run_script.
  rewrite (str_truthy_true _ Hkey). run_script.
  rewrite (str_truthy_true _ Hkey). run_script.
  destruct (uploaded i) as [|file files] eqn:Hup; [congruence |].
  unfold before_loader in Hrun. rewrite Hrun.
  destruct (loader_documents sv (file :: files)) as [|d docs]; simpl; [reflexivity |].
  destruct (from_documents sv (d :: docs)) as [index|e]; simpl; [| reflexivity].
  unfold initialize_chat_engine.
  destruct (as_chat_engine sv index) as [engine|e]; simpl; reflexivity.
Qed.

Lemma upload_section_machine i w :
  environ (snd (main_upload_section i w))
  = (if str_truthy (api_key_input i)
     then <["OPENAI_API_KEY" := api_key_input i]> (environ w)
     else environ w)
  ∧ settings_llm (snd (main_upload_section i w))
    = (if str_truthy (api_key_input i) && list_truthy (uploaded i)
       then Some gpt_4o
       else settings_llm w)
  ∧ fs (snd (main_upload_section i w))
    = (if str_truthy (api_key_input i)
       then fs (snd (process_uploaded_files (uploaded i) (before_loader i w)))
       else fs w)
  ∧ fst (main_upload_section i w) ≠ Rerun.
Proof.
  destruct (decide (api_key_input i = "")) as [Hkey|Hkey].
  { rewrite (upload_section_no_key sv i w Hkey), Hkey. simpl.
    repeat split; try reflexivity. discriminate. }
  rewrite (str_truthy_true _ Hkey).
  destruct (uploaded i) as [|file files] eqn:Hup.
  { rewrite (upload_section_no_files sv i w Hkey Hup). simpl.
    repeat split; try reflexivity. discriminate. }
  assert (Hne : uploaded i ≠ []) by (rewrite Hup; discriminate).
  rewrite (upload_section_batch_loader i w Hkey Hne), Hup. cbv zeta.
  destruct (process_uploaded_files_effect sv (file :: files) (before_loader i w))
    as (w2 & Hrun & _ & _ & _ & He & Hl).
  rewrite Hrun. simpl snd. simpl andb. cbv iota.
  assert (He' : environ w2 = <["OPENAI_API_KEY" := api_key_input i]> (environ w))
    by (rewrite He; reflexivity).
  assert (Hl' : settings_llm w2 = Some gpt_4o) by (rewrite Hl; reflexivity).
  destruct (loader_documents sv (file :: files)) as [|d docs].
  { simpl. repeat split; try assumption; try reflexivity. discriminate. }
  destruct (from_documents sv (d :: docs)) as [index|e].
  2:{ simpl. repeat split; try assumption; try reflexivity. discriminate. }
  destruct (as_chat_engine sv index) as [engine|e].
  2:{ simpl. repeat split; try assumption; try reflexivity. discriminate. }
  simpl. repeat split; try assumption; try reflexivity. discriminate.
Qed.

Lemma before_chat_machine i w :
  fs (snd (main_before_chat i w)) = fs (snd (main_upload_section i w))
  ∧ environ (snd (main_before_chat i w)) = environ (snd (main_upload_section i w))
  ∧ settings_llm (snd (main_before_chat i w))
    = settings_llm (snd (main_upload_section i w))
  ∧ chat_engine (session (snd (main_before_chat i w)))
    = chat_engine (session (snd (main_upload_section i w)))
  ∧ fst (main_before_chat i w) = fst (main_upload_section i w).
Proof.
  unfold main_before_chat, bind.
  destruct (main_upload_section i w) as [[[]| | |] w0]; simpl; auto.
  destruct (history_section_machine w0) as (Hend & Hf & He & Hl).
  destruct (history_section_spec sv w0) as (w1 & Hrun & Heng & _).
  rewrite Hrun in *. simpl in *. auto.
Qed.

(** ** The transcript *)

Lemma chat_section_transcript i w ms :
  messages (session w) = Some ms ->
  ∃ suffix, turn_suffix i suffix
    ∧ messages (session (snd (main_chat_section i w))) = Some (ms ++ suffix).
Proof.
  intros Hms.
  destruct (chat_engine (session w)) as [e|] eqn:He.
  2:{ rewrite (chat_section_no_engine sv i w He). simpl.
      exists []. rewrite app_nil_r. split; [left; reflexivity | exact Hms]. }
  destruct (chat_input_value i) as [prompt|] eqn:Hp.
  2:{ rewrite (chat_section_no_prompt sv i w e He (or_introl Hp)). simpl.
      exists []. rewrite app_nil_r. split; [left; reflexivity | exact Hms]. }
  destruct (decide (prompt = "")) as [->|Hne].
  { rewrite (chat_section_no_prompt sv i w e He (or_intror Hp)). simpl.
    exists []. rewrite app_nil_r. split; [left; reflexivity | exact Hms]. }
  destruct (chat sv e prompt) as [[resp|exc] e'] eqn:Hchat.
  - destruct (chat_section_answer sv i w e ms prompt resp e' He Hms Hp Hne Hchat)
      as (w' & Hrun & Hs & _).
    rewrite Hrun. simpl. rewrite Hs. simpl.
    eexists. split; [| reflexivity].
    right. exists prompt. split; [exact Hp | split; [exact Hne |]].
    right. exists (response resp). reflexivity.
  - destruct (chat_section_failure sv i w e ms prompt exc e' He Hms Hp Hne Hchat)
      as (w' & Hrun & Hs & _).
    rewrite Hrun. simpl. rewrite Hs. simpl.
    eexists. split; [| reflexivity].
    right. exists prompt. split; [exact Hp | split; [exact Hne |]].
    left. reflexivity.
Qed.

(** What the chat and reset sections add to a run that reached line 116,
    and that a run which did not reach it ends where it stopped. *)
Lemma main_tail i w :
  fs (snd (main i w)) = fs (snd (main_before_chat i w))
  ∧ environ (snd (main i w)) = environ (snd (main_before_chat i w))
  ∧ settings_llm (snd (main i w)) = settings_llm (snd (main_before_chat i w))
  ∧ (∀ e, chat_engine (session (snd (main_before_chat i w))) = Some e ->
       ∃ e', chat_engine (session (snd (main i w))) = Some e')
  ∧ ((reset_button i = true ∧ transcript (snd (main i w)) = [])
     ∨ ∃ suffix, turn_suffix i suffix
         ∧ transcript (snd (main i w)) = transcript w ++ suffix)
  ∧ (fst (main i w) = Rerun ->
     fst (main_before_chat i w) = Rerun
     ∨ (reset_button i = true ∧ transcript (snd (main i w)) = []))
  ∧ (reset_button i = true -> fst (main i w) ≠ Continue tt).
Proof.
  rewrite main_split.
  destruct (before_chat_effect sv i w) as (Ht & Hms & _).
  destruct (main_before_chat i w) as [[[]| | |] w1]; simpl in *.
  2-4: (repeat split; try reflexivity; eauto; try discriminate;
        right; exists []; rewrite app_nil_r; split; [left; reflexivity | exact Ht]).
  specialize (Hms eq_refl).
  destruct (chat_section_machine i w1) as (Hend & Hf & He & Hl).
  destruct (chat_section_transcript i w1 _ Hms) as (suffix & Hshape & Hms2).
  assert (Heng : ∀ e, chat_engine (session w1) = Some e ->
            ∃ e', chat_engine (session (snd (main_chat_section i w1))) = Some e').
  { intros e Hsome. exact (chat_section_keeps_engine sv i w1 e Hsome). }
  destruct (main_chat_section i w1) as [c2 w2]. simpl in *.
  assert (Ht2 : transcript w2 = transcript w ++ suffix)
    by (unfold transcript at 1; rewrite Hms2; reflexivity).
  destruct Hend as [-> | [exc ->]].
  - destruct (reset_section_machine i w2) as (Hf3 & He3 & Hl3 & Hend3).
    destruct (reset_button i) eqn:Hb.
    + rewrite (reset_section_clicked sv i w2 Hb) in *. simpl in *.
      repeat split; try congruence; auto.
    + rewrite (reset_section_idle sv i w2 Hb) in *. simpl in *.
      repeat split; try congruence; try discriminate; eauto.
  - simpl. repeat split; try congruence; try discriminate; eauto.
Qed.

Lemma answers_follow_questions_app (after_question : bool) (ms suffix : list Message) :
  answers_follow_questions after_question ms = true ->
  (∀ b, answers_follow_questions b suffix = true) ->
  answers_follow_questions after_question (ms ++ suffix) = true.
Proof.
  intros Hms Hsuffix. revert after_question Hms.
  induction ms as [|m ms IH]; intros after_question Hms; simpl in *.
  - apply Hsuffix.
  - destruct (decide (role m = "user")); [apply IH; exact Hms |].
    destruct (decide (role m = "assistant")); [| discriminate Hms].
    apply andb_true_iff in Hms. destruct Hms as (-> & Hms). simpl.
    apply IH. exact Hms.
Qed.

Lemma turn_suffix_well_formed i suffix :
  turn_suffix i suffix -> ∀ b, answers_follow_questions b suffix = true.
Proof.
  intros [-> | (question & _ & _ & [-> | (answer & ->)])] b; reflexivity.
Qed.

End RunEffects.

Section RunProperties.

Context (sv : Services).

Implicit Types (w : world sv) (i : run_input).

(** X7.  Without an API key the run stops at the warning: whatever is in
    the uploader, the chat input or the reset button, nothing is loaded,
    the disk, the environment, the settings and the session stay as they
    were, and only the title, the key field and the warning are drawn. *)
Theorem run_without_key_changes_nothing i w :
  api_key_input i = "" ->
  fst (main i w) = Returned
  ∧ session (snd (main i w)) = session w
  ∧ fs (snd (main i w)) = fs w
  ∧ environ (snd (main i w)) = environ w
  ∧ settings_llm (snd (main i w)) = settings_llm w
  ∧ ui (snd (main i w)) = ui w ++ [st_title; st_sidebar_text_input; st_warning_api_key].
Proof.
  intros Hkey. unfold main, bind. rewrite (upload_section_no_key sv i w Hkey). simpl.
  rewrite <- !app_assoc. repeat split; reflexivity.
Qed.


(** X9.  A run changes no file other than the staging files
    [temp_<name>] of the PDFs in the uploader; in particular a run with
    nothing in the uploader leaves the disk as it was. *)
Theorem run_touches_only_staging_paths i w (p : string) :
  (∀ file, In file (uploaded i) -> type file = "application/pdf" -> p ≠ temp_path file) ->
  fs (snd (main i w)) !! p = fs w !! p.
Proof.
  intros Hother.
  destruct (main_tail sv i w) as (Hf & _).
  destruct (before_chat_machine sv i w) as (Hf1 & _).
  destruct (upload_section_machine sv i w) as (_ & _ & Hf2 & _).
  rewrite Hf, Hf1, Hf2.
  destruct (str_truthy (api_key_input i)); [| reflexivity].
  destruct (process_uploaded_files_effect sv (uploaded i) (before_loader i w))
    as (w2 & Hrun & Hfs & _).
  rewrite Hrun. simpl. rewrite Hfs.
  rewrite disk_effect_other_path; [reflexivity |].
  intros file Hin Hpdf Heq. exact (Hother file Hin Hpdf (eq_sym Heq)).
Qed.

(** X10.  When building the index or the chat engine raises, the exception
    leaves [main] and the session is what it was: no engine is attached or
    replaced and the transcript attribute is not touched. *)
Theorem failed_build_leaves_session_unchanged i w e :
  api_key_input i ≠ "" ->
  loader_documents sv (uploaded i) ≠ [] ->
  (from_documents sv (loader_documents sv (uploaded i)) = Err e
   ∨ ∃ index, from_documents sv (loader_documents sv (uploaded i)) = Ok index
              ∧ as_chat_engine sv index = Err e) ->
  fst (main i w) = Raised e
  ∧ session (snd (main i w)) = session w.
Proof.
  intros Hkey Hdocs Hfail.
  assert (Hup : uploaded i ≠ []).
  { intros Hup. apply Hdocs. rewrite Hup. reflexivity. }
  destruct (upload_section_batch sv i w Hkey Hup) as (w2 & (Hs & _) & Hrun).
  unfold main, bind. rewrite Hrun. clear Hrun.
  destruct (loader_documents sv (uploaded i)) as [|d docs]; [congruence |].
  cbv zeta.
  destruct Hfail as [-> | (index & -> & ->)]; simpl; rewrite Hs; split; reflexivity.
Qed.

(** X11.  Once a chat engine is attached to the session it stays attached:
    no run, however it ends, removes it. *)
Theorem attached_engine_stays_attached i w e :
  chat_engine (session w) = Some e ->
  ∃ e', chat_engine (session (snd (main i w))) = Some e'.
Proof.
  intros He.
  destruct (main_tail sv i w) as (_ & _ & _ & Hkeep & _).
  destruct (before_chat_machine sv i w) as (_ & _ & _ & Heng & _).
  destruct (upload_section_effect sv i w) as (_ & [Hsame | (e1 & Hnew)] & _).
  - apply (Hkeep e). rewrite Heng, Hsame. exact He.
  - apply (Hkeep e1). rewrite Heng. exact Hnew.
Qed.

Lemma main_transcript_step i w :
  (reset_button i = true ∧ transcript (snd (main i w)) = [])
  ∨ ∃ suffix, turn_suffix i suffix
      ∧ transcript (snd (main i w)) = transcript w ++ suffix.
Proof. destruct (main_tail sv i w) as (_ & _ & _ & _ & Hstep & _). exact Hstep. Qed.

(** X12.  Within a session the transcript is append-only up to reset: a
    run either ends with the transcript emptied by the reset button, or
    leaves the earlier entries in place and adds nothing, the submitted
    question alone, or the question followed by one answer. *)
Theorem run_appends_to_transcript_or_resets i w :
  (reset_button i = true ∧ transcript (snd (main i w)) = [])
  ∨ ∃ suffix,
      transcript (snd (main i w)) = transcript w ++ suffix
      ∧ (suffix = []
         ∨ ∃ question, chat_input_value i = Some question ∧ question ≠ ""
             ∧ (suffix = [user_turn question]
                ∨ ∃ answer, suffix = [user_turn question; assistant_turn answer])).
Proof.
  destruct (main_transcript_step i w) as [Hreset | (suffix & Hshape & Ht)].
  - left. exact Hreset.
  - right. exists suffix. split; [exact Ht | exact Hshape].
Qed.

(** X13.  In every session the transcript holds only user and assistant
    entries, and every assistant entry comes directly after a user entry. *)
Theorem transcript_answers_follow_questions w :
  reachable w ->
  answers_follow_questions false (transcript w) = true.
Proof.
  induction 1 as [disk env | w i Hreach IH].
  - reflexivity.
  - destruct (main_transcript_step i w) as [(_ & ->) | (suffix & Hshape & ->)].
    + reflexivity.
    + apply answers_follow_questions_app; [exact IH |].
      exact (turn_suffix_well_formed i suffix Hshape).
Qed.

(** X14.  A run asks for a rerun only through the reset button, and then
    the transcript is empty; and a run in which the button was clicked
    never runs through to the end of the script. *)
Theorem rerun_only_after_reset i w :
  (fst (main i w) = Rerun ->
   reset_button i = true ∧ transcript (snd (main i w)) = [])
  ∧ (reset_button i = true -> fst (main i w) ≠ Continue tt).
Proof.
  destruct (main_tail sv i w) as (_ & _ & _ & _ & _ & Hrerun & Hclicked).
  split; [| exact Hclicked].
  intros Hend. destruct (Hrerun Hend) as [Hbefore | Hreset]; [| exact Hreset].
  destruct (before_chat_machine sv i w) as (_ & _ & _ & _ & Hfst).
  destruct (upload_section_machine sv i w) as (_ & _ & _ & Hno).
  rewrite Hfst in Hbefore. contradiction.
Qed.

(** A run whose batch is loaded and indexed reaches line 116 with the new
    engine and the earlier transcript. *)
Lemma before_chat_after_batch i w index engine :
  api_key_input i ≠ "" ->
  loader_documents sv (uploaded i) ≠ [] ->
  from_documents sv (loader_documents sv (uploaded i)) = Ok index ->
  as_chat_engine sv index = Ok engine ->
  ∃ w1, main_before_chat i w = (Continue tt, w1)
        ∧ chat_engine (session w1) = Some engine
        ∧ messages (session w1) = Some (transcript w).
Proof.
  intros Hkey Hdocs Hindex Hengine.
  assert (Hup : uploaded i ≠ []).
  { intros Hup. apply Hdocs. rewrite Hup. reflexivity. }
  destruct (upload_section_batch sv i w Hkey Hup) as (w2 & (Hs & _) & Hrun).
  destruct (loader_documents sv (uploaded i)) as [|d docs]; [congruence |].
  cbv zeta in Hrun. rewrite Hindex, Hengine in Hrun.
  unfold main_before_chat, bind. rewrite Hrun.
  match goal with
  | |- context [main_history_section ?w0] =>
      destruct (history_section_spec sv w0) as (w1 & Hhist & He & Hm & _)
  end.
  rewrite Hhist. exists w1. split; [reflexivity |].
  simpl in He, Hm. split; [exact He |].
  rewrite Hm. unfold transcript. simpl. rewrite Hs. reflexivity.
Qed.

(** X15.  While files are in the uploader every run builds the engine
    anew: a run without a prompt whose batch is loaded and indexed ends
    with the engine built from that batch in the session, whatever engine
    the session held, with the transcript emptied if the reset button was
    clicked and untouched otherwise. *)
Theorem run_with_batch_installs_new_engine i w index engine :
  api_key_input i ≠ "" ->
  loader_documents sv (uploaded i) ≠ [] ->
  from_documents sv (loader_documents sv (uploaded i)) = Ok index ->
  as_chat_engine sv index = Ok engine ->
  chat_input_value i = None ->
  chat_engine (session (snd (main i w))) = Some engine
  ∧ fst (main i w) = (if reset_button i then Rerun else Continue tt)
  ∧ transcript (snd (main i w)) = (if reset_button i then [] else transcript w).
Proof.
  intros Hkey Hdocs Hindex Hengine Hprompt.
  destruct (before_chat_after_batch i w index engine Hkey Hdocs Hindex Hengine)
    as (w1 & Hbefore & He & Hm).
  rewrite main_split, Hbefore.
  rewrite (chat_section_no_prompt sv i w1 engine He (or_introl Hprompt)).
  destruct (reset_button i) eqn:Hb.
  - rewrite (reset_section_clicked sv i _ Hb). simpl. auto.
  - rewrite (reset_section_idle sv i _ Hb). unfold transcript at 1. simpl.
    rewrite He, Hm. auto.
Qed.

(** X16.  A question asked while files are in the uploader is answered by
    the engine just built from them, not by the engine the session held:
    the answer appended is that engine's response, and the session keeps
    the engine as that call left it. *)
Theorem turn_with_batch_is_answered_by_new_engine
    i w index engine question resp engine' :
  api_key_input i ≠ "" ->
  loader_documents sv (uploaded i) ≠ [] ->
  from_documents sv (loader_documents sv (uploaded i)) = Ok index ->
  as_chat_engine sv index = Ok engine ->
  chat_input_value i = Some question ->
  question ≠ "" ->
  reset_button i = false ->
  chat sv engine question = (Ok resp, engine') ->
  fst (main i w) = Continue tt
  ∧ messages (session (snd (main i w)))
    = Some (transcript w ++ [user_turn question; assistant_turn (response resp)])
  ∧ chat_engine (session (snd (main i w))) = Some engine'.
Proof.
  intros Hkey Hdocs Hindex Hengine Hprompt Hne Hreset Hchat.
  destruct (before_chat_after_batch i w index engine Hkey Hdocs Hindex Hengine)
    as (w1 & Hbefore & He & Hm).
  destruct (chat_section_answer sv i w1 engine (transcript w) question resp engine'
              He Hm Hprompt Hne Hchat) as (w2 & Hrun & Hs & _).
  rewrite main_split, Hbefore, Hrun, (reset_section_idle sv i w2 Hreset). simpl.
  rewrite Hs. auto.
Qed.

End RunProperties.

Section ResetClaims.

Context (sv : Services).

Implicit Types (w : world sv) (i : run_input).

(** C7, amended.  The reset operation (lines 140-142) itself empties the
    transcript and changes nothing else in the session, on disk or in the
    settings.  A run whose only interaction is the click and which reaches
    the reset section ends in a rerun with an empty transcript and with the
    engine the upload section of that run left: the engine the session had
    when nothing is in the uploader, and the engine rebuilt from the batch,
    replacing the one the session had, when the uploader holds files that
    are loaded and indexed.  A run that stops before the reset section
    leaves the transcript as it was. *)
Theorem reset_run_empties_transcript i w :
  reset_button i = true ->
  (fst (main_reset_section i w) = Rerun
   ∧ transcript (snd (main_reset_section i w)) = []
   ∧ List.length (transcript (snd (main_reset_section i w))) = 0
   ∧ chat_engine (session (snd (main_reset_section i w))) = chat_engine (session w)
   ∧ fs (snd (main_reset_section i w)) = fs w
   ∧ environ (snd (main_reset_section i w)) = environ w
   ∧ settings_llm (snd (main_reset_section i w)) = settings_llm w)
  ∧ (chat_input_value i = None ->
     fst (main_before_chat i w) = Continue tt ->
     fst (main i w) = Rerun
     ∧ transcript (snd (main i w)) = []
     ∧ chat_engine (session (snd (main i w)))
       = chat_engine (session (snd (main_upload_section i w))))
  ∧ (api_key_input i ≠ "" ->
     uploaded i = [] ->
     chat_input_value i = None ->
     fst (main i w) = Rerun
     ∧ transcript (snd (main i w)) = []
     ∧ chat_engine (session (snd (main i w))) = chat_engine (session w)
     ∧ fs (snd (main i w)) = fs w)
  ∧ (∀ index engine,
       api_key_input i ≠ "" ->
       loader_documents sv (uploaded i) ≠ [] ->
       from_documents sv (loader_documents sv (uploaded i)) = Ok index ->
       as_chat_engine sv index = Ok engine ->
       chat_input_value i = None ->
       fst (main i w) = Rerun
       ∧ transcript (snd (main i w)) = []
       ∧ chat_engine (session (snd (main i w))) = Some engine)
  ∧ (fst (main_before_chat i w) ≠ Continue tt ->
     fst (main i w) ≠ Rerun
     ∧ transcript (snd (main i w)) = transcript w).
Proof.
  intros Hreset.
  assert (Hidle : ∀ w1, chat_input_value i = None ->
            fst (main_reset_section i (snd (main_chat_section i w1))) = Rerun
            ∧ fst (main_chat_section i w1) = Continue tt
            ∧ transcript (snd (main_reset_section i (snd (main_chat_section i w1)))) = []
            ∧ chat_engine (session (snd (main_reset_section i
                                           (snd (main_chat_section i w1)))))
              = chat_engine (session w1)
            ∧ fs (snd (main_reset_section i (snd (main_chat_section i w1)))) = fs w1).
  { intros w1 Hprompt.
    destruct (chat_engine (session w1)) as [e|] eqn:He1.
    - rewrite (chat_section_no_prompt sv i w1 e He1 (or_introl Hprompt)).
      rewrite (reset_section_clicked sv i _ Hreset). simpl. rewrite He1. auto.
    - rewrite (chat_section_no_engine sv i w1 He1).
      rewrite (reset_section_clicked sv i _ Hreset). simpl. rewrite He1. auto. }
  assert (Hrun : chat_input_value i = None ->
            fst (main_before_chat i w) = Continue tt ->
            fst (main i w) = Rerun
            ∧ transcript (snd (main i w)) = []
            ∧ chat_engine (session (snd (main i w)))
              = chat_engine (session (snd (main_before_chat i w)))
            ∧ fs (snd (main i w)) = fs (snd (main_before_chat i w))).
  { intros Hprompt Hbefore. rewrite main_split.
    destruct (main_before_chat i w) as [c1 w1]. simpl in Hbefore. subst c1.
    destruct (Hidle w1 Hprompt) as (Hend & Hchat & Ht & He & Hf).
    destruct (main_chat_section i w1) as [c2 w2]. simpl in *. subst c2.
    auto. }
  split; [| split; [| split; [| split]]].
  - rewrite (reset_section_clicked sv i w Hreset). simpl. repeat split; reflexivity.
  - intros Hprompt Hbefore.
    destruct (Hrun Hprompt Hbefore) as (Hend & Ht & He & _).
    destruct (before_chat_machine sv i w) as (_ & _ & _ & Heng & _).
    rewrite He, Heng. auto.
  - intros Hkey Hup Hprompt.
    destruct (before_chat_machine sv i w) as (Hf1 & _ & _ & Heng & Hfst).
    assert (Hbefore : fst (main_before_chat i w) = Continue tt)
      by (rewrite Hfst, (upload_section_no_files sv i w Hkey Hup); reflexivity).
    destruct (Hrun Hprompt Hbefore) as (Hend & Ht & He & Hf).
    rewrite He, Heng, Hf, Hf1, (upload_section_no_files sv i w Hkey Hup). simpl. auto.
  - intros index engine Hkey Hdocs Hindex Hengine Hprompt.
    destruct (before_chat_after_batch sv i w index engine Hkey Hdocs Hindex Hengine)
      as (w1 & Hbefore & He1 & _).
    assert (Hcont : fst (main_before_chat i w) = Continue tt)
      by (rewrite Hbefore; reflexivity).
    destruct (Hrun Hprompt Hcont) as (Hend & Ht & He & _).
    rewrite He, Hbefore. simpl. auto.
  - intros Hstop. rewrite main_split.
    destruct (before_chat_effect sv i w) as (Ht & _).
    destruct (before_chat_machine sv i w) as (_ & _ & _ & _ & Hfst).
    destruct (upload_section_machine sv i w) as (_ & _ & _ & Hno).
    rewrite <- Hfst in Hno.
    destruct (main_before_chat i w) as [[[]| | |] w1]; simpl in *;
      try (split; [discriminate | exact Ht]); contradiction.
Qed.

End ResetClaims.

(** C7, as stated, fails: after a turn the session holds the engine built
    from [sky.txt], with the question in its memory; the reset click, with
    [sky.txt] still in the uploader, ends in a rerun with the engine built
    anew in its place. *)
Lemma reset_run_rebuilds_engine :
  let w := snd (main (ask "What color is the sky?") ready_world) in
  reset_button reset_with_sky = true
  ∧ fst (main reset_with_sky w) = Rerun
  ∧ chat_engine (session w)
    = Some ([ {| text := "The sky is blue."; metadata := [("filename", "sky.txt")] |} ],
            ["What color is the sky?"])
  ∧ chat_engine (session (snd (main reset_with_sky w)))
    = Some ([ {| text := "The sky is blue."; metadata := [("filename", "sky.txt")] |} ],
            [])
  ∧ ¬ (∀ (sv : Services) (i : run_input) (w : world sv),
         reset_button i = true ->
         fst (main i w) = Rerun ->
         chat_engine (session (snd (main i w))) = chat_engine (session w)).
Proof.
  cbv zeta.
  split; [reflexivity |]. split; [vm_compute; reflexivity |].
  split; [vm_compute; reflexivity |]. split; [vm_compute; reflexivity |].
  intros Hclaim.
  specialize (Hclaim demo_services reset_with_sky
                (snd (main (ask "What color is the sky?") ready_world))
                eq_refl).
  vm_compute in Hclaim. specialize (Hclaim eq_refl). discriminate Hclaim.
Qed.

Lemma reset_run_empties_transcript_witness :
  let w := snd (main (ask "What color is the sky?") ready_world) in
  List.length (transcript w) = 2
  ∧ (transcript (snd (main click_reset w)) = []
     ∧ chat_engine (session (snd (main click_reset w))) = chat_engine (session w))
  ∧ (transcript (snd (main reset_with_upload w)) = []
     ∧ chat_engine (session (snd (main reset_with_upload w)))
       = Some ([paper_document], [])).
Proof.
  cbv zeta. split; [vm_compute; reflexivity |]. split.
  - destruct (reset_run_empties_transcript demo_services click_reset
                (snd (main (ask "What color is the sky?") ready_world)) eq_refl)
      as (_ & _ & Hempty & _).
    destruct Hempty as (_ & Ht & He & _).
    + discriminate.
    + reflexivity.
    + reflexivity.
    + split; assumption.
  - destruct (reset_run_empties_transcript demo_services reset_with_upload
                (snd (main (ask "What color is the sky?") ready_world)) eq_refl)
      as (_ & _ & _ & Hbatch & _).
    destruct (Hbatch [paper_document] ([paper_document], [])) as (_ & Ht & He).
    + discriminate.
    + vm_compute. discriminate.
    + vm_compute. reflexivity.
    + reflexivity.
    + reflexivity.
    + split; assumption.
Defined.

Lemma run_without_key_changes_nothing_witness :
  api_key_input no_key_run = ""
  ∧ fst (main no_key_run ready_world) = Returned
  ∧ session (snd (main no_key_run ready_world)) = session ready_world
  ∧ fs (snd (main no_key_run ready_world)) = fs ready_world.
Proof.
  split; [reflexivity |].
  destruct (run_without_key_changes_nothing demo_services no_key_run ready_world eq_refl)
    as (Hend & Hs & Hf & _).
  auto.
Defined.

Lemma run_touches_only_staging_paths_witness :
  let w := fresh_world (sv := demo_services) {[ "notes.txt" := [x41] ]} ∅ in
  fs (snd (main upload_paper w)) !! "notes.txt" = Some [x41].
Proof.
  cbv zeta.
  rewrite (run_touches_only_staging_paths demo_services upload_paper
             (fresh_world {[ "notes.txt" := [x41] ]} ∅) "notes.txt").
  - vm_compute. reflexivity.
  - intros file [<- | []] _. vm_compute. discriminate.
Defined.

Lemma failed_build_leaves_session_unchanged_witness :
  let w := fresh_world (sv := strict_services) ∅ ∅ in
  fst (main upload_empty w) = Raised (ExternalError "empty input")
  ∧ session (snd (main upload_empty w)) = session w.
Proof.
  cbv zeta.
  apply (failed_build_leaves_session_unchanged strict_services upload_empty
           (fresh_world ∅ ∅) (ExternalError "empty input")).
  - discriminate.
  - vm_compute. discriminate.
  - left. vm_compute. reflexivity.
Defined.

Lemma attached_engine_stays_attached_witness :
  fst (main (ask "quota") ready_world) = Raised (ExternalError "quota exceeded")
  ∧ ∃ e', chat_engine (session (snd (main (ask "quota") ready_world))) = Some e'.
Proof.
  split; [vm_compute; reflexivity |].
  apply (attached_engine_stays_attached demo_services (ask "quota") ready_world
           ([ {| text := "The sky is blue."; metadata := [("filename", "sky.txt")] |} ], [])).
  vm_compute. reflexivity.
Defined.

Lemma transcript_answers_follow_questions_witness :
  let w := snd (main (ask "What color is the sky?") (snd (main (ask "quota") ready_world))) in
  List.length (transcript w) = 3
  ∧ answers_follow_questions false (transcript w) = true.
Proof.
  cbv zeta. split; [vm_compute; reflexivity |].
  apply (transcript_answers_follow_questions demo_services).
  apply reachable_run. apply reachable_run.
  unfold ready_world. apply reachable_run. apply reachable_fresh.
Defined.

Lemma rerun_only_after_reset_witness :
  fst (main click_reset ready_world) = Rerun
  ∧ reset_button click_reset = true
  ∧ transcript (snd (main click_reset ready_world)) = [].
Proof.
  assert (Hend : fst (main click_reset ready_world) = Rerun)
    by (vm_compute; reflexivity).
  split; [exact Hend |].
  exact (proj1 (rerun_only_after_reset demo_services click_reset ready_world) Hend).
Defined.

Lemma run_with_batch_installs_new_engine_witness :
  let w := snd (main (ask "What color is the sky?") ready_world) in
  chat_engine (session w)
  = Some ([ {| text := "The sky is blue."; metadata := [("filename", "sky.txt")] |} ],
          ["What color is the sky?"])
  ∧ chat_engine (session (snd (main reset_with_upload w))) = Some ([paper_document], [])
  ∧ transcript (snd (main reset_with_upload w)) = [].
Proof.
  cbv zeta. split; [vm_compute; reflexivity |].
  destruct (run_with_batch_installs_new_engine demo_services reset_with_upload
              (snd (main (ask "What color is the sky?") ready_world))
              [paper_document] ([paper_document], []))
    as (He & _ & Ht).
  - discriminate.
  - vm_compute. discriminate.
  - vm_compute. reflexivity.
  - reflexivity.
  - reflexivity.
  - split; [exact He | exact Ht].
Defined.

Lemma turn_with_batch_is_answered_by_new_engine_witness :
  let w := snd (main (ask "What color is the sky?") ready_world) in
  messages (session (snd (main (ask_paper "What is in the paper?") w)))
  = Some (transcript w ++ [ user_turn "What is in the paper?";
                            assistant_turn "echo: What is in the paper?" ])
  ∧ chat_engine (session (snd (main (ask_paper "What is in the paper?") w)))
    = Some ([paper_document], ["What is in the paper?"]).
Proof.
  cbv zeta.
  destruct (turn_with_batch_is_answered_by_new_engine demo_services
              (ask_paper "What is in the paper?")
              (snd (main (ask "What color is the sky?") ready_world))
              [paper_document] ([paper_document], []) "What is in the paper?"
              {| response := "echo: What is in the paper?";
                 source_nodes := Some ["%PDF-1.4 text"] |}
              ([paper_document], ["What is in the paper?"]))
    as (_ & Hm & He).
  - discriminate.
  - vm_compute. discriminate.
  - vm_compute. reflexivity.
  - reflexivity.
  - reflexivity.
  - discriminate.
  - reflexivity.
  - vm_compute. reflexivity.
  - split; [exact Hm | exact He].
Defined.

Section PageDisplay.

Context (sv : Services).

Implicit Types (w : world sv) (i : run_input).

Lemma drawn_messages_app (evs1 evs2 : list ui_event) :
  drawn_messages (evs1 ++ evs2) = drawn_messages evs1 ++ drawn_messages evs2.
Proof. apply List.filter_app. Qed.

Lemma drawn_messages_show (ms : list Message) :
  drawn_messages (concat (map show ms)) = concat (map show ms).
Proof.
  induction ms as [|m ms IH]; [reflexivity |].
  unfold drawn_messages in *. simpl. rewrite IH. reflexivity.
Qed.

Lemma drawn_messages_file_errors (evs : list ui_event) :
  Forall is_file_error evs -> drawn_messages evs = [].
Proof.
  induction 1 as [|ev evs Hev _ IH]; [reflexivity |].
  unfold drawn_messages in *. simpl. rewrite IH.
  destruct ev; simpl in Hev; try contradiction; reflexivity.
Qed.

(** Lines 73-104 draw no chat message. *)
Lemma upload_section_draws_no_message i w :
  ∃ evs, ui (snd (main_upload_section i w)) = ui w ++ evs ∧ drawn_messages evs = [].
Proof.
  destruct (decide (api_key_input i = "")) as [Hkey|Hkey].
  { rewrite (upload_section_no_key sv i w Hkey). simpl.
    exists [st_title; st_sidebar_text_input; st_warning_api_key].
    rewrite <- !app_assoc. split; reflexivity. }
  destruct (decide (uploaded i = [])) as [Hup|Hup].
  { rewrite (upload_section_no_files sv i w Hkey Hup). simpl.
    exists [st_title; st_sidebar_text_input; st_sidebar_header; st_sidebar_file_uploader].
    rewrite <- !app_assoc. split; reflexivity. }
  destruct (upload_section_batch sv i w Hkey Hup)
    as (w2 & (_ & _ & _ & evs & Hui & Hall) & Hrun).
  assert (Hui2 : ui w2 = ui w ++ [st_title; st_sidebar_text_input; st_sidebar_header;
                                  st_sidebar_file_uploader] ++ evs).
  { rewrite Hui. unfold before_loader. simpl. rewrite <- !app_assoc. reflexivity. }
  assert (Hquiet : ∀ tl, drawn_messages tl = [] ->
            drawn_messages
              ([st_title; st_sidebar_text_input; st_sidebar_header;
                st_sidebar_file_uploader] ++ evs ++ tl) = []).
  { intros tl Htl. rewrite !drawn_messages_app, Htl.
    rewrite (drawn_messages_file_errors evs Hall). reflexivity. }
  rewrite Hrun. clear Hrun.
  destruct (loader_documents sv (uploaded i)) as [|d docs].
  { simpl. eexists. rewrite Hui2, <- !app_assoc. split; [reflexivity |].
    apply Hquiet. reflexivity. }
  cbv zeta.
  destruct (from_documents sv (d :: docs)) as [index|e].
  2:{ simpl. eexists. rewrite Hui2, <- !app_assoc. split; [reflexivity |].
      apply Hquiet. reflexivity. }
  destruct (as_chat_engine sv index) as [engine|e].
  2:{ simpl. eexists. rewrite Hui2, <- !app_assoc. split; [reflexivity |].
      apply Hquiet. reflexivity. }
  simpl. eexists. rewrite Hui2, <- !app_assoc. split; [reflexivity |].
  apply Hquiet. reflexivity.
Qed.

(** Lines 116-137 draw the entries they append, and no other chat
    message. *)
Lemma chat_section_draws i w ms :
  messages (session w) = Some ms ->
  ∃ suffix evs,
    ui (snd (main_chat_section i w)) = ui w ++ evs
    ∧ drawn_messages evs
      = concat (map show suffix) ++ unfilled_container (fst (main_chat_section i w))
    ∧ messages (session (snd (main_chat_section i w))) = Some (ms ++ suffix).
Proof.
  intros Hms.
  destruct (chat_engine (session w)) as [e|] eqn:He.
  2:{ rewrite (chat_section_no_engine sv i w He). simpl.
      exists [], [st_info_upload_first]. repeat split; rewrite ?app_nil_r; solve [reflexivity | exact Hms]. }
  destruct (chat_input_value i) as [prompt|] eqn:Hp.
  2:{ rewrite (chat_section_no_prompt sv i w e He (or_introl Hp)). simpl.
      exists [], [st_chat_input]. repeat split; rewrite ?app_nil_r; solve [reflexivity | exact Hms]. }
  destruct (decide (prompt = "")) as [->|Hne].
  { rewrite (chat_section_no_prompt sv i w e He (or_intror Hp)). simpl.
    exists [], [st_chat_input]. repeat split; rewrite ?app_nil_r; solve [reflexivity | exact Hms]. }
  destruct (chat sv e prompt) as [[resp|exc] e'] eqn:Hchat.
  - destruct (chat_section_answer sv i w e ms prompt resp e' He Hms Hp Hne Hchat)
      as (w' & Hrun & Hs & _ & Hui).
    rewrite Hrun. simpl. rewrite Hs, Hui. simpl.
    exists [user_turn prompt; assistant_turn (response resp)]. eexists.
    split; [reflexivity | split; reflexivity].
  - destruct (chat_section_failure sv i w e ms prompt exc e' He Hms Hp Hne Hchat)
      as (w' & Hrun & Hs & _ & Hui).
    rewrite Hrun. simpl. rewrite Hs, Hui. simpl.
    exists [user_turn prompt]. eexists.
    split; [reflexivity | split; reflexivity].
Qed.

(** X17.  In a run that reaches the chat section and is not reset, the
    chat messages drawn on the page, in drawing order, are the entries of
    the transcript as the run leaves it, each as a container for its role
    holding its content: the earlier entries followed by what the turn
    appended.  When the chat call raised, one more container follows, the
    assistant's, opened before the call and left empty. *)
Theorem page_shows_the_transcript i w :
  fst (main_before_chat i w) = Continue tt ->
  reset_button i = false ->
  ∃ evs, ui (snd (main i w)) = ui w ++ evs
         ∧ drawn_messages evs
           = concat (map show (transcript (snd (main i w))))
             ++ unfilled_container (fst (main i w)).
Proof.
  intros Hbefore Hreset.
  destruct (upload_section_draws_no_message i w) as (evs0 & Hui0 & Hquiet0).
  destruct (upload_section_effect sv i w) as (Hm0 & _).
  rewrite main_split.
  revert Hbefore. unfold main_before_chat, bind.
  destruct (main_upload_section i w) as [[[]| | |] w0]; simpl in *; try discriminate.
  intros _.
  destruct (history_section_spec sv w0) as (w1 & Hhist & _ & Hm1 & _ & Hui1).
  rewrite Hhist.
  assert (Ht0 : transcript w0 = transcript w)
    by (unfold transcript; rewrite Hm0; reflexivity).
  rewrite Ht0 in Hm1, Hui1.
  destruct (chat_section_draws i w1 (transcript w) Hm1) as (suffix & evs2 & Hui2 & Hd2 & Hm2).
  destruct (chat_section_machine sv i w1) as (Hend & _).
  destruct (main_chat_section i w1) as [c2 w2]. simpl in *.
  assert (Hshown : drawn_messages (evs0 ++ concat (map show (transcript w)) ++ evs2)
                   = concat (map show (transcript w ++ suffix)) ++ unfilled_container c2).
  { rewrite !drawn_messages_app, Hquiet0, drawn_messages_show, Hd2, map_app, concat_app.
    simpl. rewrite <- app_assoc. reflexivity. }
  destruct Hend as [-> | [exc ->]].
  - rewrite (reset_section_idle sv i w2 Hreset). simpl.
    exists (evs0 ++ concat (map show (transcript w)) ++ evs2 ++ [st_sidebar_button]).
    split.
    + rewrite Hui2, Hui1, Hui0, <- !app_assoc. reflexivity.
    + unfold transcript. simpl. rewrite Hm2.
      simpl in Hshown. rewrite <- Hshown, !drawn_messages_app. simpl.
      rewrite !app_nil_r. reflexivity.
  - simpl. exists (evs0 ++ concat (map show (transcript w)) ++ evs2). split.
    + rewrite Hui2, Hui1, Hui0, <- !app_assoc. reflexivity.
    + unfold transcript. rewrite Hm2. exact Hshown.
Qed.

End PageDisplay.

Lemma page_shows_the_transcript_witness :
  let w := snd (main (ask "What color is the sky?") ready_world) in
  fst (main (ask "quota") w) = Raised (ExternalError "quota exceeded")
  ∧ ∃ evs, ui (snd (main (ask "quota") w)) = ui w ++ evs
           ∧ drawn_messages evs
             = [ st_chat_message "user"; st_markdown "What color is the sky?";
                 st_chat_message "assistant"; st_markdown "echo: What color is the sky?";
                 st_chat_message "user"; st_markdown "quota";
                 st_chat_message "assistant" ].
Proof.
  cbv zeta. split; [vm_compute; reflexivity |].
  destruct (page_shows_the_transcript demo_services (ask "quota")
              (snd (main (ask "What color is the sky?") ready_world)))
    as (evs & Hui & Hshown).
  - vm_compute. reflexivity.
  - reflexivity.
  - exists evs. split; [exact Hui |]. rewrite Hshown. vm_compute. reflexivity.
Defined.
